(** * chatdba: the SQL safety gates and the two LangGraph workflows

    A shallow embedding of
      - backend/services/llm_service.py       (generation-time gate),
      - backend/services/database_service.py  (execution-time gate),
      - backend/services/rag_service.py       (retrieval context),
      - backend/utils/text_extraction.py      (per-file text extraction),
      - backend/services/query_workflow.py    (query pipeline),
      - backend/services/upload_workflow.py   (ingestion pipeline),
      - backend/routers/upload_router.py      (upload endpoints),
      - backend/routers/query_router.py       (query endpoint).

    Python [str] values are lists of characters.  The text operations
    ([upper], [lower], [strip], [isspace], the patterns of [re]) are
    modelled for ASCII text: on a text for which [isascii] holds they are
    CPython's.  Python's case maps and white space go beyond that range
    (U+017F is upper-cased to S, U+00A0 is white space), so a theorem
    about what these operations compute is stated for texts with
    [isascii]; a theorem that only passes texts along needs no such
    hypothesis.  External collaborators (the chat model, the
    vector store, the database driver, the PDF/DOCX readers, the text
    splitter, the clock) are fields of the service records: a stage calls
    them through [self], as the Python methods do. *)

From Stdlib Require Import List Ascii String ZArith NArith Lia Bool Arith.
From Stdlib Require Import DecimalString.
Import ListNotations.

Set Implicit Arguments.

(* ================================================================= *)
(** ** Python strings *)

Module Text.

Definition str := list ascii.

(** A string literal of the source. *)
Definition lit (x : string) : str := list_ascii_of_string x.

Definition newline : ascii := ascii_of_N 10.

(** [s.isascii()]: every character is a code point below 128.  The
    operations below are Python's on such texts, and are used on such
    texts only where a theorem depends on what they compute. *)
Definition isascii (s : str) : bool :=
  forallb (fun c => (N_of_ascii c <? 128)%N) s.

(** [str.isspace] on one ASCII character (CPython's white-space table
    below 128: TAB..CR, FS..US and the space). *)
Definition isspace (c : ascii) : bool :=
  let n := N_of_ascii c in
  (((9 <=? n) && (n <=? 13)) || ((28 <=? n) && (n <=? 32)))%N.

Definition upper_ascii (c : ascii) : ascii :=
  let n := N_of_ascii c in
  if ((97 <=? n) && (n <=? 122))%N then ascii_of_N (n - 32) else c.

Definition lower_ascii (c : ascii) : ascii :=
  let n := N_of_ascii c in
  if ((65 <=? n) && (n <=? 90))%N then ascii_of_N (n + 32) else c.

(** [s.upper()], [s.lower()] for [s] with [isascii]: only the letters a-z,
    respectively A-Z, change, and the length stays. *)
Definition upper (s : str) : str := map upper_ascii s.
Definition lower (s : str) : str := map lower_ascii s.

(** [s.startswith(p)] *)
Fixpoint startswith (p s : str) : bool :=
  match p, s with
  | [], _ => true
  | _ :: _, [] => false
  | a :: p', c :: s' => Ascii.eqb a c && startswith p' s'
  end.

(** [p in s] *)
Fixpoint contains (p s : str) : bool :=
  startswith p s ||
  match s with
  | [] => false
  | _ :: s' => contains p s'
  end.

Fixpoint lstrip (s : str) : str :=
  match s with
  | [] => []
  | c :: s' => if isspace c then lstrip s' else s
  end.

Definition rstrip (s : str) : str := rev (lstrip (rev s)).

(** [s.strip()] *)
Definition strip (s : str) : str := lstrip (rstrip s).

(** Truthiness of a Python string: [if s]. *)
Definition truthy (s : str) : bool :=
  match s with [] => false | _ :: _ => true end.

(** [str(n)] for an integer. *)
Definition str_of_Z (z : Z) : str := lit (NilZero.string_of_int (Z.to_int z)).

(** [sep.join(parts)] *)
Fixpoint join (sep : str) (parts : list str) : str :=
  match parts with
  | [] => []
  | [p] => p
  | p :: rest => p ++ sep ++ join sep rest
  end.

End Text.
Import Text.

(* ================================================================= *)
(** ** Exceptions *)

Module Exn.

(** The exceptions the modelled code raises or receives.  [Exception]
    stands for any exception of a collaborator; it carries [str(e)]. *)
Inductive exn : Type :=
| ValueError (msg : str)
| KeyError (key : str)
| HTTPException (status_code : Z) (detail : str)
| GraphRecursionError
| Exception (msg : str).

(** [str(e)].  An [HTTPException] prints as [<status>: <detail>]
    (Starlette's [__str__], which FastAPI's class inherits).  A
    [GraphRecursionError] prints the sentence langgraph builds for the
    default limit; its later releases add a line with a link, and no
    result below depends on this text. *)
Definition str_of_exn (e : exn) : str :=
  match e with
  | ValueError m => m
  | KeyError k => lit "'" ++ k ++ lit "'"
  | HTTPException c d => str_of_Z c ++ lit ": " ++ d
  | GraphRecursionError =>
      lit "Recursion limit of 25 reached without hitting a stop condition. You can increase the limit by setting the `recursion_limit` config key."
  | Exception m => m
  end.

(** A computation that returns or raises. *)
Inductive result (A : Type) : Type :=
| Ok (a : A)
| Raise (e : exn).

Arguments Ok {A} a.
Arguments Raise {A} e.

Definition bind {A B : Type} (c : result A) (k : A -> result B) : result B :=
  match c with
  | Ok a => k a
  | Raise e => Raise e
  end.

(** [try: c  except Exception as e: h e] *)
Definition try_except {A : Type} (c : result A) (h : exn -> A) : A :=
  match c with
  | Ok a => a
  | Raise e => h e
  end.

End Exn.
Import Exn.

Notation "x <- c ;; k" := (bind c (fun x => k))
  (at level 61, c at next level, right associativity).

(* ================================================================= *)
(** ** The fragment of Python's [re] the gates use *)

Module Re.

(** Patterns.  [Cls p] is one character of the class [p]; [Eos] is [$]
    without [re.MULTILINE]. *)
Inductive regex : Type :=
| Nul
| Eps
| Cls (p : ascii -> bool)
| Cat (a b : regex)
| Alt (a b : regex)
| Star (a : regex)
| Eos.

(** [$] holds at the end of the text and just before a final newline. *)
Definition at_end (rest : str) : bool :=
  match rest with
  | [] => true
  | [c] => Ascii.eqb c newline
  | _ => false
  end.

(** Does [r] match the empty piece when [rest] follows? *)
Fixpoint nullable (r : regex) (rest : str) : bool :=
  match r with
  | Nul => false
  | Eps => true
  | Cls _ => false
  | Cat a b => nullable a rest && nullable b rest
  | Alt a b => nullable a rest || nullable b rest
  | Star _ => true
  | Eos => at_end rest
  end.

(** What is left of [r] after reading [c], when [rest] follows [c]. *)
Fixpoint deriv (c : ascii) (rest : str) (r : regex) : regex :=
  match r with
  | Nul => Nul
  | Eps => Nul
  | Eos => Nul
  | Cls p => if p c then Eps else Nul
  | Cat a b =>
      Alt (Cat (deriv c rest a) b)
          (if nullable a (c :: rest) then deriv c rest b else Nul)
  | Alt a b => Alt (deriv c rest a) (deriv c rest b)
  | Star a => Cat (deriv c rest a) (Star a)
  end.

(** [re.match(r, s)] is not [None]: some prefix of [s] matches. *)
Fixpoint match_here (r : regex) (s : str) : bool :=
  nullable r s ||
  match s with
  | [] => false
  | c :: s' => match_here (deriv c s' r) s'
  end.

(** [re.search(r, s)] is not [None]: a match starts somewhere in [s]. *)
Fixpoint search (r : regex) (s : str) : bool :=
  match_here r s ||
  match s with
  | [] => false
  | _ :: s' => search r s'
  end.

(** A literal character under [re.IGNORECASE], matched against an ASCII
    character: the two agree up to the case of a letter. *)
Definition chr_i (a : ascii) : regex :=
  Cls (fun c => Ascii.eqb (upper_ascii c) (upper_ascii a)).

(** A literal word under [re.IGNORECASE]. *)
Definition word_i (w : string) : regex :=
  fold_right (fun a r => Cat (chr_i a) r) Eps (lit w).

(** [r+] *)
Definition Plus (r : regex) : regex := Cat r (Star r).

(** [\s], [[^\s]], [[^\n]], [[\s\S]] *)
Definition space : regex := Cls isspace.
Definition non_space : regex := Cls (fun c => negb (isspace c)).
Definition non_newline : regex := Cls (fun c => negb (Ascii.eqb c newline)).
Definition any_char : regex := Cls (fun _ => true).



End Re.
Import Re.

(* ================================================================= *)
(** ** Values shared by the services *)

Module Data.

(** A cell of a result row ([Dict[str, Any]]). *)
Inductive pyval : Type :=
| PyNone
| PyInt (z : Z)
| PyStr (s : str)
| PyBool (b : bool).

Definition Row := list (str * pyval).

(** One column of [DatabaseService.get_schema]. *)
Record Column : Type := {
  col_name : str;
  col_type : str;
  col_nullable : bool;
  col_primary_key : bool
}.

(** [Dict[str, List[Dict[str, Any]]]]: table name to columns, in order. *)
Definition Schema := list (str * list Column).

(** A (string-valued) Python dict, in insertion order. *)
Definition dict := list (str * str).

(** [d.get(key, default)] *)
Fixpoint dict_get (key : str) (d : dict) (default : str) : str :=
  match d with
  | [] => default
  | (k, v) :: d' =>
      if list_eq_dec ascii_dec k key then v else dict_get key d' default
  end.

(** langchain's [Document]. *)
Record Document : Type := {
  page_content : str;
  metadata : dict
}.

(** An entry of [RAGService.search_relevant_info]; [score] is the constant
    [getattr(doc, 'score', 0.0)] falls back to. *)
Record Snippet : Type := {
  content : str;
  snippet_metadata : dict;
  score : Z
}.

(** The dict [RAGService.get_query_context] returns. *)
Record RagContext : Type := {
  schema_info : list Snippet;
  best_practices : list Snippet;
  full_schema : Schema
}.

(** Chat messages handed to the model. *)
Inductive message : Type :=
| SystemMessage (text : str)
| HumanMessage (text : str).

(** Truthiness of an optional value: [if state.get(k)] for a key whose value,
    when present, is judged by [nonzero]. *)
Definition truthy_opt {A : Type} (nonzero : A -> bool) (o : option A) : bool :=
  match o with
  | None => false
  | Some a => nonzero a
  end.

Definition nonempty {A : Type} (l : list A) : bool :=
  match l with [] => false | _ :: _ => true end.

End Data.
Import Data.

(* ================================================================= *)
(** ** services/database_service.py *)

Module DatabaseService.

(** The driver behind [self.engine]. *)
Record t : Type := {
  inspect_schema : result Schema;
  run_sql : str -> result (list Row)
}.

(** [get_schema]: the driver's error is logged and raised again. *)
Definition get_schema (self : t) : result Schema := inspect_schema self.

(** [execute_query(query)] with no parameters. *)
Definition execute_query (self : t) (query : str) : result (list Row) :=
  run_sql self query.

Definition dangerous_keywords : list str :=
  [lit "insert"; lit "update"; lit "delete"; lit "drop";
   lit "truncate"; lit "alter"; lit "create"].

(** [is_safe_query]: the execution-time gate. *)
Definition is_safe_query (query : str) : bool :=
  let query_lower := lower query in
  if negb (startswith (lit "select") (strip query_lower)) then false
  else negb (existsb (fun keyword => contains keyword query_lower)
                     dangerous_keywords).

End DatabaseService.

(* ================================================================= *)
(** ** services/rag_service.py *)

Module RAGService.

(** The Chroma store behind [self.vector_store]. *)
Record VectorStore : Type := {
  similarity_search : str -> Z -> result (list Document);
  add_documents : list Document -> result unit
}.

Record t : Type := {
  vector_store : option VectorStore
}.

(** [search_relevant_info]: any failure is logged and answered by []. *)
Definition search_relevant_info (self : t) (query : str) (max_results : Z)
  : list Snippet :=
  try_except
    (match vector_store self with
     | None => Raise (Exception (lit "'NoneType' object has no attribute 'similarity_search'"))
     | Some vs =>
         results <- similarity_search vs query max_results ;;
         Ok (map (fun doc => {| content := page_content doc;
                                snippet_metadata := metadata doc;
                                score := 0 |}) results)
     end)
    (fun _ => []).

(** [get_query_context] *)
Definition get_query_context (self : t) (natural_language_query : str)
    (schema : Schema) : result RagContext :=
  let schema_results := search_relevant_info self natural_language_query 3 in
  let best_practice_results :=
    search_relevant_info self
      (lit "best practices " ++ natural_language_query) 2 in
  Ok {| schema_info := schema_results;
        best_practices := best_practice_results;
        full_schema := schema |}.

End RAGService.

(* ================================================================= *)
(** ** services/llm_service.py *)

Module LLMService.

(** The chat model behind [self.llm], and the f-string templates of the
    prompts (their wording plays no part in the control flow). *)
Record t : Type := {
  ainvoke : list message -> result str;
  system_prompt_template : RagContext -> str;
  explain_system_template : str -> str -> str;
  explain_human_template : str -> nat -> str;
  format_results : list Row -> str
}.

(** [_create_system_prompt] *)
Definition _create_system_prompt (self : t) (context : RagContext) : str :=
  system_prompt_template self context.

(** Length of the match of [```sql\n?|```] at the head of [s]; 0 if none. *)
Definition fence_len (s : str) : nat :=
  if startswith (lit "```sql") s then
    if startswith (lit "```sql" ++ [newline]) s then 7 else 6
  else if startswith (lit "```") s then 3
  else 0.

(** [re.sub(r'```sql\n?|```', '', s)]: scan from the left, dropping each
    match; [skip] characters of the current match remain to be dropped. *)
Fixpoint sub_fences (skip : nat) (s : str) : str :=
  match s with
  | [] => []
  | c :: s' =>
      match skip with
      | S k => sub_fences k s'
      | O =>
          match fence_len s with
          | O => c :: sub_fences 0 s'
          | S k => sub_fences k s'
          end
      end
  end.

Definition strip_fences (s : str) : str := sub_fences 0 s.

(** [query[m.start():]] for [m = re.search(r'SELECT', query, re.IGNORECASE)];
    [None] when there is no match. *)
Fixpoint from_first_select (query : str) : option str :=
  match query with
  | [] => None
  | _ :: rest =>
      if startswith (lit "SELECT") (upper query) then Some query
      else from_first_select rest
  end.

(** [_clean_sql_query] *)
Definition _clean_sql_query (query : str) : result str :=
  let query := strip_fences query in
  let query := strip query in
  if negb (startswith (lit "SELECT") (upper query)) then
    match from_first_select query with
    | Some q => Ok q
    | None => Raise (ValueError (lit "Query must be a SELECT statement"))
    end
  else Ok query.

(** The entries of [dangerous_patterns], in the order of the source. *)
Definition pat_drop_table : regex :=
  Cat (word_i "DROP") (Cat (Plus space) (word_i "TABLE")).
Definition pat_delete_from : regex :=
  Cat (word_i "DELETE") (Cat (Plus space) (word_i "FROM")).
Definition pat_update_set : regex :=
  Cat (word_i "UPDATE")
    (Cat (Plus space) (Cat (Plus non_space) (Cat (Plus space) (word_i "SET")))).
Definition pat_insert_into : regex :=
  Cat (word_i "INSERT") (Cat (Plus space) (word_i "INTO")).
Definition pat_truncate : regex := word_i "TRUNCATE".
Definition pat_exec : regex :=
  Cat (word_i "EXEC") (Cat (Star space) (chr_i "(")).
Definition pat_execute : regex :=
  Cat (word_i "EXECUTE") (Cat (Star space) (chr_i "(")).
Definition pat_line_comment : regex :=
  Cat (word_i "--") (Cat (Star space) (Cat (Star non_newline) Eos)).
Definition pat_block_comment : regex :=
  Cat (word_i "/*") (Cat (Star any_char) (word_i "*/")).

Definition dangerous_patterns : list regex :=
  [pat_drop_table; pat_delete_from; pat_update_set; pat_insert_into;
   pat_truncate; pat_exec; pat_execute; pat_line_comment; pat_block_comment].

(** [_is_query_safe]: the generation-time gate. *)
Definition _is_query_safe (query : str) : bool :=
  let query_upper := upper query in
  if negb (startswith (lit "SELECT") query_upper) then false
  else negb (existsb (fun pattern => search pattern query_upper)
                     dangerous_patterns).

(** [generate_sql_query]: every exception is logged and raised again. *)
Definition generate_sql_query (self : t) (natural_language_query : str)
    (context : RagContext) : result str :=
  let system_prompt := _create_system_prompt self context in
  response <- ainvoke self
    [SystemMessage system_prompt;
     HumanMessage (lit "Generate a SQL query for: " ++ natural_language_query)] ;;
  let sql_query := strip response in
  sql_query <- _clean_sql_query sql_query ;;
  if _is_query_safe sql_query then Ok sql_query
  else Raise (ValueError (lit "Generated query failed safety validation")).

Definition fallback_explanation : str :=
  lit "Unable to generate explanation for the results.".

(** [explain_results]: any failure is answered by the fallback sentence. *)
Definition explain_results (self : t) (query : str) (results : list Row)
    (natural_language_query : str) : str :=
  try_except
    (let system_prompt :=
       explain_system_template self natural_language_query query in
     let sample_results :=
       if 5 <? List.length results then firstn 5 results else results in
     let human_message :=
       explain_human_template self
         (format_results self sample_results) (List.length results) in
     response <- ainvoke self
       [SystemMessage system_prompt; HumanMessage human_message] ;;
     Ok (strip response))
    (fun _ => fallback_explanation).

End LLMService.

(* ================================================================= *)
(** ** utils/text_extraction.py *)

Module TextExtraction.

Definition bytes := list ascii.

(** The readers the module imports; [None] when the import failed.
    [pdf_pages] yields [page.extract_text()] of every page,
    [docx_paragraphs] the text of every paragraph, and [decode_utf8] is
    [content.decode('utf-8')] ([None]: [UnicodeDecodeError]). *)
Record t : Type := {
  pdf_pages : option (bytes -> result (list str));
  docx_paragraphs : option (bytes -> result (list str));
  decode_utf8 : bytes -> option str
}.

Definition extract_text_from_pdf (self : t) (content : bytes) : result str :=
  match pdf_pages self with
  | None =>
      Raise (HTTPException 400 (lit "PDF processing requires PyPDF2 package"))
  | Some reader =>
      match reader content with
      | Ok pages => Ok (List.concat (map (fun page => page ++ [newline]) pages))
      | Raise e =>
          Raise (HTTPException 400 (lit "PDF extraction failed: " ++ str_of_exn e))
      end
  end.

Definition extract_text_from_docx (self : t) (content : bytes) : result str :=
  match docx_paragraphs self with
  | None =>
      Raise (HTTPException 400 (lit "DOCX processing requires python-docx package"))
  | Some reader =>
      match reader content with
      | Ok paragraphs => Ok (join [newline] paragraphs)
      | Raise e =>
          Raise (HTTPException 400 (lit "DOCX extraction failed: " ++ str_of_exn e))
      end
  end.

Definition str_eqb (a b : str) : bool :=
  if list_eq_dec ascii_dec a b then true else false.

Definition plain_text_types : list str :=
  [lit ".txt"; lit ".md"; lit ".csv"; lit ".json"; lit ".xml";
   lit ".html"; lit ".htm"].

Definition extract_text_from_file (self : t) (content : bytes)
    (file_extension : str) : result str :=
  if str_eqb file_extension (lit ".pdf") then extract_text_from_pdf self content
  else if str_eqb file_extension (lit ".docx") then
    extract_text_from_docx self content
  else if existsb (str_eqb file_extension) plain_text_types then
    match decode_utf8 self content with
    | Some text => Ok text
    | None => Raise (HTTPException 400 (lit "File encoding not supported"))
    end
  else
    Raise (HTTPException 400
             (lit "Unsupported file type for text extraction: " ++ file_extension)).

End TextExtraction.

(* ================================================================= *)
(** ** The graph engine ([langgraph.graph.StateGraph], compiled)

    The workflows hand their graphs to the library and call [ainvoke].
    The library runs the entry node, merges the node's partial state into
    the running state, asks the outgoing edge for the next node, and stops
    at [END]; it counts steps and raises [GraphRecursionError] at
    [recursion_limit].  The list returned beside the outcome is the
    sequence of nodes run; the library does not return it. *)

Module LangGraph.

Definition END : string := "__end__"%string.

Definition recursion_limit : nat := 25.

Fixpoint lookup {A : Type} (key : string) (l : list (string * A)) : option A :=
  match l with
  | [] => None
  | (k, v) :: l' => if String.eqb k key then Some v else lookup key l'
  end.

Section Graph.

Variable State : Type.

(** How a node's partial state updates the running state. *)
Variable merge : State -> State -> State.

Inductive edge : Type :=
| Edge (target : string)
| ConditionalEdges (path : State -> string) (path_map : list (string * string)).

Record StateGraph : Type := {
  nodes : list (string * (State -> State));
  entry_point : string;
  edges : list (string * edge)
}.

(** The node the edge leaving [current] leads to. *)
Definition next_node (g : StateGraph) (current : string) (state : State)
  : result string :=
  match lookup current (edges g) with
  | None => Raise (ValueError (lit "dead-end node"))
  | Some (Edge target) => Ok target
  | Some (ConditionalEdges path path_map) =>
      match lookup (path state) path_map with
      | Some target => Ok target
      | None => Raise (KeyError (lit "unknown branch"))
      end
  end.

Fixpoint run (fuel : nat) (g : StateGraph) (current : string) (state : State)
  : list string * result State :=
  match fuel with
  | O => ([], Raise GraphRecursionError)
  | S fuel' =>
      match lookup current (nodes g) with
      | None => ([], Raise (ValueError (lit "unknown node")))
      | Some action =>
          let state' := merge state (action state) in
          match next_node g current state' with
          | Raise e => ([current], Raise e)
          | Ok next =>
              if String.eqb next END then ([current], Ok state')
              else
                let (trace, outcome) := run fuel' g next state' in
                (current :: trace, outcome)
          end
      end
  end.

(** [graph.ainvoke(initial_state)] *)
Definition ainvoke (g : StateGraph) (initial_state : State) : result State :=
  snd (run recursion_limit g (entry_point g) initial_state).

(** The nodes [ainvoke] runs, in order. *)
Definition visited (g : StateGraph) (initial_state : State) : list string :=
  fst (run recursion_limit g (entry_point g) initial_state).

(** The targets the edge leaving a node can choose. *)
Definition successors (g : StateGraph) (node : string) : list string :=
  match lookup node (edges g) with
  | None => []
  | Some (Edge target) => [target]
  | Some (ConditionalEdges _ path_map) => map snd path_map
  end.

End Graph.

Arguments Edge {State} target.

End LangGraph.

(** Subscripts and [dict.get] on a state or a file entry. *)
Module Access.

(** [d[key]]: [KeyError] when the key is absent. *)
Definition getitem {A : Type} (key : string) (o : option A) : result A :=
  match o with
  | Some v => Ok v
  | None => Raise (KeyError (lit key))
  end.

(** [d.get(key, default)] *)
Definition get_or {A : Type} (default : A) (o : option A) : A :=
  match o with
  | Some v => v
  | None => default
  end.

(** A partial update: the new value when the key is written. *)
Definition over {A : Type} (new old : option A) : option A :=
  match new with
  | Some v => Some v
  | None => old
  end.

(** [l[:n]] *)
Definition slice_to {A : Type} (l : list A) (n : Z) : list A :=
  if (0 <=? n)%Z then firstn (Z.to_nat n) l
  else firstn (List.length l - Z.to_nat (- n)) l.

End Access.
Import Access.

(* ================================================================= *)
(** ** services/query_workflow.py *)

Module QueryWorkflow.

(** [models/graph_state.py], [QueryState]: a key is [None] until written. *)
Record QueryState : Type := {
  natural_language_query : option str;
  max_results : option Z;
  schema : option Schema;
  rag_context : option RagContext;
  generated_sql : option str;
  execution_result : option (list Row);
  explanation : option str;
  error : option str;
  success : option bool
}.

(** The empty dict. *)
Definition no_update : QueryState :=
  {| natural_language_query := None; max_results := None; schema := None;
     rag_context := None; generated_sql := None; execution_result := None;
     explanation := None; error := None; success := None |}.

(** The running state updated by a node's partial state: a key the node
    returns replaces the old value, the others stay. *)
Definition merge (state update : QueryState) : QueryState :=
  {| natural_language_query :=
       over (natural_language_query update) (natural_language_query state);
     max_results := over (max_results update) (max_results state);
     schema := over (schema update) (schema state);
     rag_context := over (rag_context update) (rag_context state);
     generated_sql := over (generated_sql update) (generated_sql state);
     execution_result := over (execution_result update) (execution_result state);
     explanation := over (explanation update) (explanation state);
     error := over (error update) (error state);
     success := over (success update) (success state) |}.

(** [{"error": msg, "success": False}] *)
Definition failure (msg : str) : QueryState :=
  {| natural_language_query := None; max_results := None; schema := None;
     rag_context := None; generated_sql := None; execution_result := None;
     explanation := None; error := Some msg; success := Some false |}.

(** [self]: the three services of [__init__]. *)
Record t : Type := {
  rag_service : RAGService.t;
  llm_service : LLMService.t;
  db_service : DatabaseService.t
}.

Definition get_schema (self : t) (state : QueryState) : QueryState :=
  try_except
    (schema <- DatabaseService.get_schema (db_service self) ;;
     Ok {| natural_language_query := None; max_results := None;
           schema := Some schema;
           rag_context := None; generated_sql := None;
           execution_result := None; explanation := None;
           error := None; success := None |})
    (fun e => failure (lit "Schema extraction failed: " ++ str_of_exn e)).

Definition get_rag_context (self : t) (state : QueryState) : QueryState :=
  try_except
    (if negb (truthy_opt nonempty (schema state)) then
       Ok (failure (lit "No schema available"))
     else
       question <- getitem "natural_language_query" (natural_language_query state) ;;
       tables <- getitem "schema" (schema state) ;;
       context <- RAGService.get_query_context (rag_service self) question tables ;;
       Ok {| natural_language_query := None; max_results := None;
             schema := None;
             rag_context := Some context;
             generated_sql := None; execution_result := None;
             explanation := None; error := None; success := None |})
    (fun _ =>
       {| natural_language_query := None; max_results := None; schema := None;
          rag_context :=
            Some {| schema_info := []; best_practices := [];
                    full_schema := get_or [] (schema state) |};
          generated_sql := None; execution_result := None;
          explanation := None; error := None; success := None |}).

Definition generate_sql (self : t) (state : QueryState) : QueryState :=
  try_except
    (if negb (truthy_opt (fun _ => true) (rag_context state)) then
       Ok (failure (lit "No context available for SQL generation"))
     else
       question <- getitem "natural_language_query" (natural_language_query state) ;;
       context <- getitem "rag_context" (rag_context state) ;;
       sql_query <- LLMService.generate_sql_query (llm_service self) question context ;;
       Ok {| natural_language_query := None; max_results := None;
             schema := None; rag_context := None;
             generated_sql := Some sql_query;
             execution_result := None; explanation := None;
             error := None; success := None |})
    (fun e => failure (lit "SQL generation failed: " ++ str_of_exn e)).

Definition execute_query (self : t) (state : QueryState) : QueryState :=
  try_except
    (if negb (truthy_opt truthy (generated_sql state)) then
       Ok (failure (lit "No SQL query to execute"))
     else
       sql <- getitem "generated_sql" (generated_sql state) ;;
       if negb (DatabaseService.is_safe_query sql) then
         Ok (failure (lit "Generated query is not safe"))
       else
         results <- DatabaseService.execute_query (db_service self) sql ;;
         Ok {| natural_language_query := None; max_results := None;
               schema := None; rag_context := None; generated_sql := None;
               execution_result :=
                 Some (slice_to results (get_or 50%Z (max_results state)));
               explanation := None; error := None;
               success := Some true |})
    (fun e => failure (lit "Query execution failed: " ++ str_of_exn e)).

Definition explain_results (self : t) (state : QueryState) : QueryState :=
  try_except
    (if negb (truthy_opt nonempty (execution_result state))
        || negb (truthy_opt truthy (generated_sql state)) then
       Ok state
     else
       sql <- getitem "generated_sql" (generated_sql state) ;;
       rows <- getitem "execution_result" (execution_result state) ;;
       question <- getitem "natural_language_query" (natural_language_query state) ;;
       Ok {| natural_language_query := None; max_results := None;
             schema := None; rag_context := None; generated_sql := None;
             execution_result := None;
             explanation :=
               Some (LLMService.explain_results (llm_service self) sql rows question);
             error := None; success := None |})
    (fun _ =>
       {| natural_language_query := None; max_results := None; schema := None;
          rag_context := None; generated_sql := None; execution_result := None;
          explanation := Some LLMService.fallback_explanation;
          error := None; success := None |}).

Definition handle_error (self : t) (state : QueryState) : QueryState :=
  let error_msg := get_or (lit "Unknown error occurred") (error state) in
  failure error_msg.

(** [check_sql_validity]; past the first test [state["generated_sql"]] is
    present. *)
Definition check_sql_validity (state : QueryState) : string :=
  if truthy_opt truthy (error state)
     || negb (truthy_opt truthy (generated_sql state)) then "invalid"%string
  else
    let sql := upper (get_or [] (generated_sql state)) in
    if negb (startswith (lit "SELECT") sql) || contains (lit "ERROR:") sql
    then "invalid"%string
    else "valid"%string.

Definition check_execution_success (state : QueryState) : string :=
  if truthy_opt truthy (error state) || negb (get_or false (success state))
  then "error"%string
  else "success"%string.

Definition _build_graph (self : t) : LangGraph.StateGraph QueryState :=
  {| LangGraph.nodes :=
       [("get_schema"%string, get_schema self);
        ("get_rag_context"%string, get_rag_context self);
        ("generate_sql"%string, generate_sql self);
        ("execute_query"%string, execute_query self);
        ("explain_results"%string, explain_results self);
        ("handle_error"%string, handle_error self)];
     LangGraph.entry_point := "get_schema"%string;
     LangGraph.edges :=
       [("get_schema"%string, LangGraph.Edge "get_rag_context"%string);
        ("get_rag_context"%string, LangGraph.Edge "generate_sql"%string);
        ("generate_sql"%string,
         LangGraph.ConditionalEdges check_sql_validity
           [("valid"%string, "execute_query"%string);
            ("invalid"%string, "handle_error"%string)]);
        ("execute_query"%string,
         LangGraph.ConditionalEdges check_execution_success
           [("success"%string, "explain_results"%string);
            ("error"%string, "handle_error"%string)]);
        ("explain_results"%string, LangGraph.Edge LangGraph.END);
        ("handle_error"%string, LangGraph.Edge LangGraph.END)] |}.

(** The dict [process_query] returns: five keys on the normal path, two
    when [ainvoke] raised. *)
Inductive QueryResult : Type :=
| FullResult (generated_sql : option str) (execution_result : option (list Row))
    (explanation : option str) (success : bool) (error : option str)
| FailureResult (success : bool) (error : str).

Definition initial_state (natural_language_query : str) (max_results : Z)
  : QueryState :=
  {| natural_language_query := Some natural_language_query;
     max_results := Some max_results;
     schema := None; rag_context := None; generated_sql := None;
     execution_result := None; explanation := None; error := None;
     success := Some false |}.

Definition process_query (self : t) (natural_language_query : str)
    (max_results : Z) : QueryResult :=
  match LangGraph.ainvoke merge (_build_graph self)
          (initial_state natural_language_query max_results) with
  | Ok final_state =>
      FullResult (generated_sql final_state) (execution_result final_state)
        (explanation final_state) (get_or false (success final_state))
        (error final_state)
  | Raise e =>
      FailureResult false (lit "Workflow execution failed: " ++ str_of_exn e)
  end.

(** [max_results: int = 50] *)
Definition default_max_results : Z := 50.

(** The nodes a call of [process_query] runs, in order. *)
Definition stages_run (self : t) (natural_language_query : str)
    (max_results : Z) : list string :=
  LangGraph.visited merge (_build_graph self)
    (initial_state natural_language_query max_results).

(** The running state after each node of the main path. *)
Definition after_schema (self : t) (state : QueryState) : QueryState :=
  merge state (get_schema self state).
Definition after_context (self : t) (state : QueryState) : QueryState :=
  let s1 := after_schema self state in merge s1 (get_rag_context self s1).
Definition after_generation (self : t) (state : QueryState) : QueryState :=
  let s2 := after_context self state in merge s2 (generate_sql self s2).
Definition after_execution (self : t) (state : QueryState) : QueryState :=
  let s3 := after_generation self state in merge s3 (execute_query self s3).

(** The keys no node before [explain_results] writes. *)
Definition keeps_inputs (update : QueryState) : Prop :=
  natural_language_query update = None /\
  max_results update = None /\
  explanation update = None.

(** An error text, once written, is not blank. *)
Definition error_not_blank (state : QueryState) : Prop :=
  error state <> Some [].

End QueryWorkflow.

(* ================================================================= *)
(** ** services/upload_workflow.py *)

Module UploadWorkflow.

Import TextExtraction.

(** An entry of [files]: the caller's dict, or the one [validate_files]
    rebuilds.  A key is [None] when absent. *)
Record FileInfo : Type := {
  filename : option str;
  content : option bytes;
  extension : option str;
  size : option nat
}.

(** An entry of [extracted_texts]. *)
Record ExtractedText : Type := {
  text_filename : str;
  text : str;
  text_extension : str;
  text_error : option str
}.

(** An entry of [results]. *)
Record ResultRecord : Type := {
  result_filename : str;
  status : str;
  message : str;
  chunk_size : option nat
}.

(** [models/graph_state.py], [UploadState]. *)
Record UploadState : Type := {
  files : option (list FileInfo);
  extracted_texts : option (list ExtractedText);
  processed_documents : option (list Document);
  results : option (list ResultRecord);
  error : option str;
  success : option bool
}.

Definition merge (state update : UploadState) : UploadState :=
  {| files := over (files update) (files state);
     extracted_texts := over (extracted_texts update) (extracted_texts state);
     processed_documents :=
       over (processed_documents update) (processed_documents state);
     results := over (results update) (results state);
     error := over (error update) (error state);
     success := over (success update) (success state) |}.

(** [{"error": msg, "success": False}] *)
Definition failure (msg : str) : UploadState :=
  {| files := None; extracted_texts := None; processed_documents := None;
     results := None; error := Some msg; success := Some false |}.

(** [self]: the retrieval service, and what the stages import: the
    extraction module, the clock ([datetime.now().isoformat()]) and the
    splitter ([RecursiveCharacterTextSplitter(1000, 200).split_text]). *)
Record t : Type := {
  rag_service : RAGService.t;
  extraction : TextExtraction.t;
  now_isoformat : str;
  split_text : str -> list str
}.

(** The extension [os.path.splitext] cuts off: from the last dot of the
    last path component, unless only dots precede it there. *)
Fixpoint span_ext (reversed acc : str) : option (str * str) :=
  match reversed with
  | [] => None
  | c :: r =>
      if Ascii.eqb c "/" then None
      else if Ascii.eqb c "." then Some ("."%char :: acc, r)
      else span_ext r (c :: acc)
  end.

Fixpoint name_before (reversed : str) : bool :=
  match reversed with
  | [] => false
  | c :: r =>
      if Ascii.eqb c "/" then false
      else if Ascii.eqb c "." then name_before r
      else true
  end.

Definition splitext_ext (path : str) : str :=
  match span_ext (rev path) [] with
  | None => []
  | Some (ext, head) => if name_before head then ext else []
  end.

(** The loop of [validate_files]. *)
Fixpoint validated (fs : list FileInfo) : list FileInfo :=
  match fs with
  | [] => []
  | file_info :: rest =>
      match filename file_info, content file_info with
      | Some name, Some data =>
          if negb (truthy name) || negb (nonempty data) then validated rest
          else
            {| filename := Some name;
               content := Some data;
               extension := Some (lower (splitext_ext name));
               size := Some (List.length data) |} :: validated rest
      | _, _ => validated rest
      end
  end.

Definition validate_files (self : t) (state : UploadState) : UploadState :=
  let fs := get_or [] (files state) in
  if negb (nonempty fs) then failure (lit "No files provided")
  else
    {| files := Some (validated fs);
       extracted_texts := None; processed_documents := None;
       results := None; error := None; success := None |}.

(** One turn of the loop of [extract_text]: the inner [try], and the
    handler, which reads the entry again. *)
Definition extract_one (self : t) (file_info : FileInfo) : result ExtractedText :=
  match
    (data <- getitem "content" (content file_info) ;;
     ext <- getitem "extension" (extension file_info) ;;
     text_content <- extract_text_from_file (extraction self) data ext ;;
     name <- getitem "filename" (filename file_info) ;;
     Ok {| text_filename := name; text := text_content;
           text_extension := ext; text_error := None |})
  with
  | Ok entry => Ok entry
  | Raise e =>
      name <- getitem "filename" (filename file_info) ;;
      ext <- getitem "extension" (extension file_info) ;;
      Ok {| text_filename := name;
            text := lit "Failed to extract text: " ++ str_of_exn e;
            text_extension := ext;
            text_error := Some (str_of_exn e) |}
  end.

Fixpoint extract_all (self : t) (fs : list FileInfo) : result (list ExtractedText) :=
  match fs with
  | [] => Ok []
  | file_info :: rest =>
      entry <- extract_one self file_info ;;
      entries <- extract_all self rest ;;
      Ok (entry :: entries)
  end.

Definition extract_text (self : t) (state : UploadState) : UploadState :=
  try_except
    (let fs := get_or [] (files state) in
     if negb (nonempty fs) then Ok (failure (lit "No files to process"))
     else
       entries <- extract_all self fs ;;
       Ok {| files := None; extracted_texts := Some entries;
             processed_documents := None; results := None;
             error := None; success := None |})
    (fun e => failure (lit "Text extraction failed: " ++ str_of_exn e)).

(** The [Document] built for an entry without an error. *)
Definition document_of (self : t) (text_info : ExtractedText) : Document :=
  {| page_content := text text_info;
     metadata :=
       [(lit "filename", text_filename text_info);
        (lit "upload_time", now_isoformat self);
        (lit "file_type", text_extension text_info);
        (lit "source", lit "upload")] |}.

(** The loop of [create_documents]. *)
Fixpoint documents_of (self : t) (entries : list ExtractedText) : list Document :=
  match entries with
  | [] => []
  | text_info :: rest =>
      if truthy_opt truthy (text_error text_info) then documents_of self rest
      else document_of self text_info :: documents_of self rest
  end.

(** [text_splitter.split_documents]: every chunk of a document's text
    becomes a document with that document's metadata. *)
Definition split_documents (self : t) (documents : list Document) : list Document :=
  flat_map
    (fun doc =>
       map (fun chunk => {| page_content := chunk; metadata := metadata doc |})
           (split_text self (page_content doc)))
    documents.

Definition create_documents (self : t) (state : UploadState) : UploadState :=
  let entries := get_or [] (extracted_texts state) in
  if negb (nonempty entries) then failure (lit "No extracted text to process")
  else
    let documents := documents_of self entries in
    let split_docs := split_documents self documents in
    {| files := None; extracted_texts := None;
       processed_documents := Some split_docs;
       results := None; error := None; success := None |}.

(** The record written for a chunk when the store handle is missing. *)
Definition unavailable_record (doc : Document) : ResultRecord :=
  {| result_filename := dict_get (lit "filename") (metadata doc) (lit "unknown");
     status := lit "error";
     message := lit "Vector store not available";
     chunk_size := None |}.

(** The record written for a chunk once the insertion returned. *)
Definition success_record (doc : Document) : ResultRecord :=
  {| result_filename := dict_get (lit "filename") (metadata doc) (lit "unknown");
     status := lit "success";
     message := lit "File processed successfully";
     chunk_size := Some (List.length (page_content doc)) |}.

Definition add_to_vector_store (self : t) (state : UploadState) : UploadState :=
  try_except
    (let documents := get_or [] (processed_documents state) in
     if negb (nonempty documents) then Ok (failure (lit "No documents to add"))
     else
       match RAGService.vector_store (rag_service self) with
       | None =>
           Ok {| files := None; extracted_texts := None;
                 processed_documents := None;
                 results := Some (map unavailable_record documents);
                 error := Some (lit "Vector store not available");
                 success := Some false |}
       | Some store =>
           _ <- RAGService.add_documents store documents ;;
           Ok {| files := None; extracted_texts := None;
                 processed_documents := None;
                 results := Some (map success_record documents);
                 error := None;
                 success := Some true |}
       end)
    (fun e => failure (lit "Failed to add documents: " ++ str_of_exn e)).

(** The failure record [handle_error] and [process_upload] build for a file. *)
Definition error_record (error_msg : str) (file_info : FileInfo) : ResultRecord :=
  {| result_filename := get_or (lit "unknown") (filename file_info);
     status := lit "error";
     message := error_msg;
     chunk_size := None |}.

Definition handle_error (self : t) (state : UploadState) : UploadState :=
  let error_msg := get_or (lit "Unknown error occurred") (error state) in
  let fs := get_or [] (files state) in
  {| files := None; extracted_texts := None; processed_documents := None;
     results := Some (map (error_record error_msg) fs);
     error := Some error_msg;
     success := Some false |}.

Definition check_documents_created (state : UploadState) : string :=
  if truthy_opt truthy (error state)
     || negb (truthy_opt nonempty (processed_documents state))
  then "error"%string
  else "success"%string.

Definition check_upload_success (state : UploadState) : string :=
  if truthy_opt truthy (error state) || negb (get_or false (success state))
  then "error"%string
  else "success"%string.

Definition _build_graph (self : t) : LangGraph.StateGraph UploadState :=
  {| LangGraph.nodes :=
       [("validate_files"%string, validate_files self);
        ("extract_text"%string, extract_text self);
        ("create_documents"%string, create_documents self);
        ("add_to_vector_store"%string, add_to_vector_store self);
        ("handle_error"%string, handle_error self)];
     LangGraph.entry_point := "validate_files"%string;
     LangGraph.edges :=
       [("validate_files"%string, LangGraph.Edge "extract_text"%string);
        ("extract_text"%string, LangGraph.Edge "create_documents"%string);
        ("create_documents"%string,
         LangGraph.ConditionalEdges check_documents_created
           [("success"%string, "add_to_vector_store"%string);
            ("error"%string, "handle_error"%string)]);
        ("add_to_vector_store"%string,
         LangGraph.ConditionalEdges check_upload_success
           [("success"%string, LangGraph.END);
            ("error"%string, "handle_error"%string)]);
        ("handle_error"%string, LangGraph.Edge LangGraph.END)] |}.

(** The dict [process_upload] returns. *)
Record UploadResult : Type := {
  processed_files : nat;
  successful : nat;
  failed : nat;
  out_results : list ResultRecord;
  out_success : bool;
  out_error : option str
}.

Definition initial_state (fs : list FileInfo) : UploadState :=
  {| files := Some fs; extracted_texts := None; processed_documents := None;
     results := None; error := None; success := Some false |}.

(** [len([r for r in records if r.get("status") == label])] *)
Definition count_status (label : str) (records : list ResultRecord) : nat :=
  List.length (filter (fun r => str_eqb (status r) label) records).

Definition process_upload (self : t) (fs : list FileInfo) : UploadResult :=
  match LangGraph.ainvoke merge (_build_graph self) (initial_state fs) with
  | Ok final_state =>
      {| processed_files := List.length fs;
         successful := count_status (lit "success") (get_or [] (results final_state));
         failed := count_status (lit "error") (get_or [] (results final_state));
         out_results := get_or [] (results final_state);
         out_success := get_or false (success final_state);
         out_error := error final_state |}
  | Raise e =>
      let msg := lit "Workflow execution failed: " ++ str_of_exn e in
      {| processed_files := List.length fs;
         successful := 0;
         failed := List.length fs;
         out_results := map (error_record msg) fs;
         out_success := false;
         out_error := Some msg |}
  end.

(** The nodes a call of [process_upload] runs, in order. *)
Definition stages_run (self : t) (fs : list FileInfo) : list string :=
  LangGraph.visited merge (_build_graph self) (initial_state fs).

(** The running state after each node of the main path. *)
Definition after_validation (self : t) (state : UploadState) : UploadState :=
  merge state (validate_files self state).
Definition after_extraction (self : t) (state : UploadState) : UploadState :=
  let s1 := after_validation self state in merge s1 (extract_text self s1).
Definition after_documents (self : t) (state : UploadState) : UploadState :=
  let s2 := after_extraction self state in merge s2 (create_documents self s2).
Definition after_insertion (self : t) (state : UploadState) : UploadState :=
  let s3 := after_documents self state in merge s3 (add_to_vector_store self s3).

(** Does the extraction capability fail on this (validated) file? *)
Definition extraction_fails (self : t) (file_info : FileInfo) : bool :=
  match extract_text_from_file (extraction self)
          (get_or [] (content file_info)) (get_or [] (extension file_info)) with
  | Ok _ => false
  | Raise _ => true
  end.

(** The entry the loop of [extract_text] appends for a file that has its
    three keys. *)
Definition entry_of (self : t) (file_info : FileInfo) : ExtractedText :=
  let name := get_or [] (filename file_info) in
  let ext := get_or [] (extension file_info) in
  match extract_text_from_file (extraction self)
          (get_or [] (content file_info)) ext with
  | Ok text_content =>
      {| text_filename := name; text := text_content;
         text_extension := ext; text_error := None |}
  | Raise e =>
      {| text_filename := name;
         text := lit "Failed to extract text: " ++ str_of_exn e;
         text_extension := ext;
         text_error := Some (str_of_exn e) |}
  end.

(** The file has a name, a content and an extension. *)
Definition complete (file_info : FileInfo) : Prop :=
  (exists name, filename file_info = Some name) /\
  (exists data, content file_info = Some data) /\
  (exists ext, extension file_info = Some ext).

End UploadWorkflow.

(* ================================================================= *)
(** ** The words of the safety policy *)

Module Policy.




(** The reject patterns, said of the upper-cased text [u]. *)









End Policy.

(* ================================================================= *)
(** ** Concrete collaborators, for the examples *)

Module Fixtures.

Definition users_schema : Schema :=
  [(lit "users",
    [{| col_name := lit "id"; col_type := lit "INTEGER";
        col_nullable := false; col_primary_key := true |}])].

Definition one_row : Row := [(lit "1", PyInt 1)].

(** A database that answers every statement with [rows]. *)
Definition database (rows : list Row) : DatabaseService.t :=
  {| DatabaseService.inspect_schema := Ok users_schema;
     DatabaseService.run_sql := fun _ => Ok rows |}.

(** A vector store whose every call raises. *)
Definition store_down : RAGService.VectorStore :=
  {| RAGService.similarity_search :=
       fun _ _ => Raise (Exception (lit "connection refused"));
     RAGService.add_documents :=
       fun _ => Raise (Exception (lit "connection refused")) |}.

(** A vector store that finds nothing and accepts every insertion. *)
Definition store_up : RAGService.VectorStore :=
  {| RAGService.similarity_search := fun _ _ => Ok [];
     RAGService.add_documents := fun _ => Ok tt |}.

(** A chat model that answers every prompt with [answer]. *)
Definition model (answer : string) : LLMService.t :=
  {| LLMService.ainvoke := fun _ => Ok (lit answer);
     LLMService.system_prompt_template := fun _ => lit "schema";
     LLMService.explain_system_template := fun _ _ => lit "explain";
     LLMService.explain_human_template := fun _ _ => lit "rows";
     LLMService.format_results := fun _ => lit "rows" |}.

(** The query workflow over a failing retrieval store. *)
Definition query_workflow (answer : string) (rows : list Row) : QueryWorkflow.t :=
  {| QueryWorkflow.rag_service := {| RAGService.vector_store := Some store_down |};
     QueryWorkflow.llm_service := model answer;
     QueryWorkflow.db_service := database rows |}.

(** Readers without the PDF and DOCX packages; every byte string decodes. *)
Definition readers : TextExtraction.t :=
  {| TextExtraction.pdf_pages := None;
     TextExtraction.docx_paragraphs := None;
     TextExtraction.decode_utf8 := fun data => Some data |}.

(** A splitter that cuts a text after its third character. *)
Definition cut_in_two (text : str) : list str :=
  match text with
  | [] => []
  | _ :: _ => [firstn 3 text; skipn 3 text]
  end.

Definition upload_workflow (store : RAGService.VectorStore) : UploadWorkflow.t :=
  {| UploadWorkflow.rag_service := {| RAGService.vector_store := Some store |};
     UploadWorkflow.extraction := readers;
     UploadWorkflow.now_isoformat := lit "2024-01-01T00:00:00";
     UploadWorkflow.split_text := cut_in_two |}.

(** An uploaded file as the router passes it on. *)
Definition upload (name data : string) : UploadWorkflow.FileInfo :=
  {| UploadWorkflow.filename := Some (lit name);
     UploadWorkflow.content := Some (lit data);
     UploadWorkflow.extension := Some (lower (UploadWorkflow.splitext_ext (lit name)));
     UploadWorkflow.size := None |}.

(** A hand-built graph with a cycle: one node that counts, left through a
    conditional edge once the count reaches 2. *)
Definition counting_graph : LangGraph.StateGraph nat :=
  {| LangGraph.nodes := [("tick"%string, S)];
     LangGraph.entry_point := "tick"%string;
     LangGraph.edges :=
       [("tick"%string,
         LangGraph.ConditionalEdges
           (fun n => if n <? 2 then "again"%string else "done"%string)
           [("again"%string, "tick"%string); ("done"%string, LangGraph.END)])] |}.

(** A hand-built graph with a cycle and no way out. *)
Definition spinning_graph : LangGraph.StateGraph nat :=
  {| LangGraph.nodes := [("a"%string, S); ("b"%string, S)];
     LangGraph.entry_point := "a"%string;
     LangGraph.edges :=
       [("a"%string, LangGraph.Edge "b"%string);
        ("b"%string, LangGraph.Edge "a"%string)] |}.

(** A node's result replaces the count. *)
Definition replace (old new : nat) : nat := new.

End Fixtures.

(* ================================================================= *)
(** ** Names for what a run of the ingestion pipeline produces *)

Module Ingestion.

Import UploadWorkflow.

(** The chunks [create_documents] hands on for a submission. *)
Definition chunks_of (self : UploadWorkflow.t) (fs : list FileInfo)
  : list Document :=
  split_documents self
    (documents_of self (map (entry_of self) (validated fs))).

(** The dict [process_upload] returns for a run that ended in
    [handle_error] with [msg]. *)
Definition failure_report (fs : list FileInfo) (msg : str) : UploadResult :=
  {| processed_files := List.length fs;
     successful := 0;
     failed := List.length (validated fs);
     out_results := map (error_record msg) (validated fs);
     out_success := false;
     out_error := Some msg |}.

(** The decision table of a run: which dict [process_upload] returns for a
    submission, read off the accepted files, the chunks and the store. *)
Definition report (self : UploadWorkflow.t) (fs : list FileInfo) : UploadResult :=
  match validated fs with
  | [] => failure_report fs (lit "No extracted text to process")
  | _ :: _ =>
      match chunks_of self fs with
      | [] => failure_report fs (lit "Unknown error occurred")
      | _ :: _ =>
          match RAGService.vector_store (rag_service self) with
          | None => failure_report fs (lit "Vector store not available")
          | Some store =>
              match RAGService.add_documents store (chunks_of self fs) with
              | Raise e =>
                  failure_report fs
                    (lit "Failed to add documents: " ++ str_of_exn e)
              | Ok _ =>
                  {| processed_files := List.length fs;
                     successful := List.length (chunks_of self fs);
                     failed := 0;
                     out_results := map success_record (chunks_of self fs);
                     out_success := true;
                     out_error := None |}
              end
          end
      end
  end.

End Ingestion.

(* ================================================================= *)
(** ** routers/upload_router.py *)

Module UploadRouter.

Import TextExtraction UploadWorkflow.

(** FastAPI's [UploadFile]: the name the client sent, if any, and what
    [await file.read()] yields. *)
Record UploadFile : Type := {
  upload_filename : option str;
  read : result bytes
}.

(** What the endpoints reach outside themselves: [get_upload_workflow()],
    whose first call builds the workflow, and the text of
    [', '.join(SUPPORTED_EXTENSIONS)], in the iteration order of the set. *)
Record t : Type := {
  get_upload_workflow : result UploadWorkflow.t;
  supported_listing : str
}.

Definition SUPPORTED_EXTENSIONS : list str :=
  [lit ".txt"; lit ".pdf"; lit ".doc"; lit ".docx"; lit ".md";
   lit ".csv"; lit ".json"; lit ".xml"; lit ".html"; lit ".htm"].

(** [file_extension in SUPPORTED_EXTENSIONS] *)
Definition supported (file_extension : str) : bool :=
  existsb (str_eqb file_extension) SUPPORTED_EXTENSIONS.

(** [os.path.splitext(file.filename)[1].lower()]; a missing name is a
    [TypeError] of [splitext]. *)
Definition extension_of (file : UploadFile) : result str :=
  match upload_filename file with
  | Some name => Ok (lower (splitext_ext name))
  | None =>
      Raise (Exception
               (lit "expected str, bytes or os.PathLike object, not NoneType"))
  end.

(** The dict an endpoint hands to [process_upload] for a file. *)
Definition entry (file : UploadFile) (data : bytes) (file_extension : str)
  : FileInfo :=
  {| filename := upload_filename file;
     content := Some data;
     extension := Some file_extension;
     size := None |}.

(** The body of the 200 answer of [upload_knowledge_file]; [up_result] is
    [None] for the empty dict. *)
Record Uploaded : Type := {
  up_message : str;
  up_filename : option str;
  up_file_type : str;
  up_size : nat;
  up_processed : bool;
  up_result : option ResultRecord
}.

(** [upload_knowledge_file].  [HTTPException(500, detail=None)] takes the
    phrase of its status as detail. *)
Definition upload_knowledge_file (self : t) (file : UploadFile)
  : result Uploaded :=
  match
    (file_extension <- extension_of file ;;
     if negb (supported file_extension) then
       Raise (HTTPException 400
                (lit "Unsupported file type: " ++ file_extension
                 ++ lit ". Supported types: " ++ supported_listing self))
     else
       data <- read file ;;
       workflow <- get_upload_workflow self ;;
       let result :=
         process_upload workflow [entry file data file_extension] in
       if out_success result then
         Ok {| up_message := lit "File uploaded successfully";
               up_filename := upload_filename file;
               up_file_type := file_extension;
               up_size := List.length data;
               up_processed := true;
               up_result := hd_error (out_results result) |}
       else
         Raise (HTTPException 500
                  (get_or (lit "Internal Server Error") (out_error result))))
  with
  | Ok response => Ok response
  | Raise e =>
      Raise (HTTPException 500
               (lit "File processing failed: " ++ str_of_exn e))
  end.

(** The loop of [upload_knowledge_batch]: a file of another type is
    skipped, the others are read in turn. *)
Fixpoint collect (files : list UploadFile) : result (list FileInfo) :=
  match files with
  | [] => Ok []
  | file :: rest =>
      file_extension <- extension_of file ;;
      if negb (supported file_extension) then collect rest
      else
        data <- read file ;;
        file_data <- collect rest ;;
        Ok (entry file data file_extension :: file_data)
  end.

(** [upload_knowledge_batch] *)
Definition upload_knowledge_batch (self : t) (files : list UploadFile)
  : result UploadResult :=
  match
    (file_data <- collect files ;;
     if negb (nonempty file_data) then
       Raise (HTTPException 400 (lit "No valid files provided"))
     else
       workflow <- get_upload_workflow self ;;
       Ok (process_upload workflow file_data))
  with
  | Ok result => Ok result
  | Raise e =>
      Raise (HTTPException 500 (lit "Batch upload failed: " ++ str_of_exn e))
  end.

(** The types [extract_text_from_file] can read. *)
Definition readable_types : list str :=
  lit ".pdf" :: lit ".docx" :: plain_text_types.

(** The file has a name of a supported type and can be read. *)
Definition takes_part (file : UploadFile) : bool :=
  match extension_of file with
  | Ok file_extension => supported file_extension
  | Raise _ => false
  end.

End UploadRouter.

(* ================================================================= *)
(** ** routers/query_router.py *)

Module QueryRouter.

(** [models/schemas.py] *)
Record QueryRequest : Type := {
  natural_language_query : str;
  max_results : option Z
}.

Record QueryResponse : Type := {
  generated_sql : str;
  execution_result : option (list Row);
  explanation : str;
  success : bool;
  error_message : option str
}.

(** The module-level services, and [schema], read once at import. *)
Record t : Type := {
  db_service : DatabaseService.t;
  rag_service : RAGService.t;
  llm_service : LLMService.t;
  schema : Schema
}.

(** [results[:request.max_results]]; [None] keeps every row. *)
Definition rows_up_to (results : list Row) (limit : option Z) : list Row :=
  match limit with
  | Some n => slice_to results n
  | None => results
  end.

(** [process_query], the endpoint. *)
Definition process_query (self : t) (request : QueryRequest) : QueryResponse :=
  try_except
    (context <- RAGService.get_query_context (rag_service self)
                  (natural_language_query request) (schema self) ;;
     sql_query <- LLMService.generate_sql_query (llm_service self)
                    (natural_language_query request) context ;;
     if negb (DatabaseService.is_safe_query sql_query) then
       Raise (HTTPException 400 (lit "Generated query is not safe"))
     else
       results <- DatabaseService.execute_query (db_service self) sql_query ;;
       let explanation :=
         LLMService.explain_results (llm_service self) sql_query results
           (natural_language_query request) in
       Ok {| generated_sql := sql_query;
             execution_result := Some (rows_up_to results (max_results request));
             explanation := explanation;
             success := true;
             error_message := None |})
    (fun e =>
       {| generated_sql := [];
          execution_result := None;
          explanation := lit "Error: " ++ str_of_exn e;
          success := false;
          error_message := Some (str_of_exn e) |}).

(** The workflow over the same three services. *)
Definition workflow (self : t) : QueryWorkflow.t :=
  {| QueryWorkflow.rag_service := rag_service self;
     QueryWorkflow.llm_service := llm_service self;
     QueryWorkflow.db_service := db_service self |}.

End QueryRouter.

(* ================================================================= *)
(** ** Concrete endpoints, for the examples *)

Module Examples.

(** The query endpoint over the services of [Fixtures.query_workflow]. *)
Definition query_router (answer : string) (rows : list Row) : QueryRouter.t :=
  {| QueryRouter.db_service := Fixtures.database rows;
     QueryRouter.rag_service :=
       {| RAGService.vector_store := Some Fixtures.store_down |};
     QueryRouter.llm_service := Fixtures.model answer;
     QueryRouter.schema := Fixtures.users_schema |}.

(** The upload endpoints over a working store. *)
Definition upload_router : UploadRouter.t :=
  {| UploadRouter.get_upload_workflow :=
       Ok (Fixtures.upload_workflow Fixtures.store_up);
     UploadRouter.supported_listing :=
       lit ".txt, .pdf, .doc, .docx, .md, .csv, .json, .xml, .html, .htm" |}.

(** An upload as the client sends it. *)
Definition sent (name data : string) : UploadRouter.UploadFile :=
  {| UploadRouter.upload_filename := Some (lit name);
     UploadRouter.read := Ok (lit data) |}.

End Examples.

(* ================================================================= *)
(** ** Occurrences of a word, whatever the case *)

Module Wording.


(** A code fence of the model's answer. *)
Definition fence : str := lit "```".

(** [s] does not begin with a backquote. *)
Definition first_tick_free (s : str) : Prop :=
  match s with
  | [] => True
  | c :: _ => c <> "`"%char
  end.

(** [t] is what is left of [s] after deleting characters. *)
Inductive Subsequence : str -> str -> Prop :=
| SubNil : Subsequence [] []
| SubKeep c t s : Subsequence t s -> Subsequence (c :: t) (c :: s)
| SubDrop c t s : Subsequence t s -> Subsequence t (c :: s).

End Wording.

(* ================================================================= *)
(** * Properties *)

Unset Implicit Arguments.

(** Case analysis on every scrutinee of the goal, innermost first. *)
Ltac split_cases :=
  repeat match goal with
         | |- context [match ?x with _ => _ end] =>
             lazymatch x with
             | context [match _ with _ => _ end] => fail
             | _ => destruct x eqn:?
             end
         end.

(* ================================================================= *)
(** ** The matcher agrees with the declarative reading of patterns *)

Section ReFacts.









End ReFacts.

(* ================================================================= *)
(** ** Facts about the text operations *)

Section TextFacts.

Lemma startswith_iff (p s : str) :
  startswith p s = true <-> exists rest, s = p ++ rest.
Proof.
  revert s. induction p as [ | a p IH ]; intros s; simpl.
  - split; [ intros _; exists s; reflexivity | reflexivity ].
  - destruct s as [ | c s ].
    + split; [ discriminate | intros (rest & E); discriminate ].
    + rewrite andb_true_iff, IH, Ascii.eqb_eq. split.
      * intros (-> & rest & ->). exists rest. reflexivity.
      * intros (rest & E). injection E as -> ->.
        split; [ reflexivity | exists rest; reflexivity ].
Qed.




End TextFacts.

(* ================================================================= *)
(** ** Characters, trimming and literal words

    The case maps below undo each other, keep the length of a text and
    commute with trimming.  This is so of the ASCII letters and not of
    Python's case maps in general; the theorems that rest on these facts
    are stated for texts with [isascii]. *)

Section CaseFacts.















Lemma contains_iff (p s : str) :
  contains p s = true <-> exists pre post, s = pre ++ p ++ post.
Proof.
  induction s as [ | c s IH ]; cbn [contains].
  - rewrite orb_false_r, startswith_iff. split.
    + intros (rest & E). exists [], rest. exact E.
    + intros (pre & post & E). symmetry in E.
      apply app_eq_nil in E as [-> E]. exists post. symmetry. exact E.
  - rewrite orb_true_iff, startswith_iff, IH. split.
    + intros [(rest & E) | (pre & post & E)].
      * exists [], rest. exact E.
      * exists (c :: pre), post. simpl. f_equal. exact E.
    + intros (pre & post & E). destruct pre as [ | c' pre ]; simpl in E.
      * left. exists post. exact E.
      * right. injection E as <- ->. exists pre, post. reflexivity.
Qed.




End CaseFacts.

(* ================================================================= *)
(** ** The reject patterns in plain words *)

Section PatternReadings.

Import LLMService.
















End PatternReadings.

(* ================================================================= *)
(** ** The generation-time gate *)

Section GenerationGate.

Import LLMService.




End GenerationGate.


(* ================================================================= *)
(** ** The two gates compared *)

Section TwoGates.

Import LLMService DatabaseService.






(** The converse direction fails as well: a column named [updated_at]
    passes the generation-time gate and is rejected at execution time. *)
Lemma generation_accepts_execution_rejects :
  _is_query_safe (lit "SELECT updated_at FROM t") = true /\
  is_safe_query (lit "SELECT updated_at FROM t") = false.
Proof. split; vm_compute; reflexivity. Qed.



End TwoGates.

(* ================================================================= *)
(** ** One step of the engine *)

Section EngineSteps.

Variable State : Type.
Variable merge : State -> State -> State.

Lemma LangGraph_run_step (fuel : nat) (g : LangGraph.StateGraph State)
    (current : string) (state : State) :
  LangGraph.run merge (S fuel) g current state =
  match LangGraph.lookup current (LangGraph.nodes g) with
  | None => ([], Raise (ValueError (lit "unknown node")))
  | Some action =>
      match LangGraph.next_node g current (merge state (action state)) with
      | Raise e => ([current], Raise e)
      | Ok next =>
          if String.eqb next LangGraph.END
          then ([current], Ok (merge state (action state)))
          else
            let (trace, outcome) :=
              LangGraph.run merge fuel g next (merge state (action state)) in
            (current :: trace, outcome)
      end
  end.
Proof. reflexivity. Qed.

End EngineSteps.

(* ================================================================= *)
(** ** Runs of the query pipeline *)

Section QueryRuns.

Import QueryWorkflow.

Variable self : QueryWorkflow.t.

Lemma check_sql_validity_cases (state : QueryState) :
  check_sql_validity state = "valid"%string \/
  check_sql_validity state = "invalid"%string.
Proof.
  unfold check_sql_validity.
  destruct (_ || _); [ right; reflexivity | ].
  destruct (_ || _); [ right | left ]; reflexivity.
Qed.

Lemma check_execution_success_cases (state : QueryState) :
  check_execution_success state = "success"%string \/
  check_execution_success state = "error"%string.
Proof.
  unfold check_execution_success.
  destruct (_ || _); [ right | left ]; reflexivity.
Qed.

Ltac step_graph :=
  rewrite LangGraph_run_step;
  cbn [LangGraph.lookup LangGraph.next_node LangGraph.nodes LangGraph.edges
       LangGraph.END _build_graph String.eqb Ascii.eqb Bool.eqb].

(** The run of the graph, node by node. *)
Lemma query_run_unfold (state : QueryState) :
  LangGraph.run merge LangGraph.recursion_limit (_build_graph self)
    "get_schema" state =
  let s3 := after_generation self state in
  let s4 := after_execution self state in
  if String.eqb (check_sql_validity s3) "valid" then
    if String.eqb (check_execution_success s4) "success" then
      (["get_schema"; "get_rag_context"; "generate_sql"; "execute_query";
        "explain_results"]%string,
       Ok (merge s4 (explain_results self s4)))
    else
      (["get_schema"; "get_rag_context"; "generate_sql"; "execute_query";
        "handle_error"]%string,
       Ok (merge s4 (handle_error self s4)))
  else
    (["get_schema"; "get_rag_context"; "generate_sql"; "handle_error"]%string,
     Ok (merge s3 (handle_error self s3))).
Proof.
  cbv zeta. unfold LangGraph.recursion_limit.
  unfold after_execution, after_generation, after_context, after_schema.
  cbv zeta.
  set (s1 := merge state (get_schema self state)).
  set (s2 := merge s1 (get_rag_context self s1)).
  set (s3 := merge s2 (generate_sql self s2)).
  set (s4 := merge s3 (execute_query self s3)).
  do 3 step_graph. fold s1 s2 s3.
  destruct (check_sql_validity_cases s3) as [E | E]; rewrite E;
    cbn [LangGraph.lookup String.eqb Ascii.eqb Bool.eqb].
  - step_graph. fold s4.
    destruct (check_execution_success_cases s4) as [E' | E']; rewrite E';
      cbn [LangGraph.lookup String.eqb Ascii.eqb Bool.eqb];
      step_graph; reflexivity.
  - step_graph. reflexivity.
Qed.

End QueryRuns.

(* ================================================================= *)
(** ** What each node of the query pipeline writes *)

Section QueryStages.

Import QueryWorkflow.

Variable self : QueryWorkflow.t.

Ltac open_stage :=
  unfold get_schema, get_rag_context, generate_sql, execute_query,
    RAGService.get_query_context, try_except, bind, getitem, failure;
  split_cases.

Lemma get_schema_keeps_inputs (state : QueryState) :
  keeps_inputs (get_schema self state).
Proof. unfold keeps_inputs. open_stage; cbn; repeat split; reflexivity. Qed.

Lemma get_rag_context_keeps_inputs (state : QueryState) :
  keeps_inputs (get_rag_context self state).
Proof. unfold keeps_inputs. open_stage; cbn; repeat split; reflexivity. Qed.

Lemma generate_sql_keeps_inputs (state : QueryState) :
  keeps_inputs (generate_sql self state).
Proof. unfold keeps_inputs. open_stage; cbn; repeat split; reflexivity. Qed.

Lemma execute_query_keeps_inputs (state : QueryState) :
  keeps_inputs (execute_query self state).
Proof. unfold keeps_inputs. open_stage; cbn; repeat split; reflexivity. Qed.

Lemma get_schema_error_not_blank (state : QueryState) :
  error_not_blank (get_schema self state).
Proof. unfold error_not_blank. open_stage; cbn; discriminate. Qed.

Lemma get_rag_context_error_not_blank (state : QueryState) :
  error_not_blank (get_rag_context self state).
Proof. unfold error_not_blank. open_stage; cbn; discriminate. Qed.

Lemma generate_sql_error_not_blank (state : QueryState) :
  error_not_blank (generate_sql self state).
Proof. unfold error_not_blank. open_stage; cbn; discriminate. Qed.

Lemma execute_query_error_not_blank (state : QueryState) :
  error_not_blank (execute_query self state).
Proof. unfold error_not_blank. open_stage; cbn; discriminate. Qed.

Lemma merge_error_not_blank (state update : QueryState) :
  error_not_blank state -> error_not_blank update ->
  error_not_blank (merge state update).
Proof.
  unfold error_not_blank, merge. cbn. unfold over.
  destruct (error update); auto.
Qed.

Lemma merge_keeps_question (state update : QueryState) :
  keeps_inputs update ->
  natural_language_query (merge state update) = natural_language_query state /\
  max_results (merge state update) = max_results state /\
  explanation (merge state update) = explanation state.
Proof.
  intros (E1 & E2 & E3). unfold merge. cbn. rewrite E1, E2, E3. auto.
Qed.

(** Before [explain_results] the question and the limit are the caller's,
    and no explanation has been written. *)
Lemma inputs_at_execution (question : str) (limit : Z) :
  let s3 := after_generation self (initial_state question limit) in
  let s4 := after_execution self (initial_state question limit) in
  (natural_language_query s3 = Some question /\
   max_results s3 = Some limit /\ explanation s3 = None) /\
  (natural_language_query s4 = Some question /\
   max_results s4 = Some limit /\ explanation s4 = None).
Proof.
  cbv zeta.
  unfold after_execution, after_generation, after_context, after_schema.
  cbv zeta.
  set (s0 := initial_state question limit).
  set (s1 := merge s0 (get_schema self s0)).
  set (s2 := merge s1 (get_rag_context self s1)).
  set (s3 := merge s2 (generate_sql self s2)).
  destruct (merge_keeps_question s0 _ (get_schema_keeps_inputs s0))
    as (A1 & A2 & A3). fold s1 in A1, A2, A3.
  destruct (merge_keeps_question s1 _ (get_rag_context_keeps_inputs s1))
    as (B1 & B2 & B3). fold s2 in B1, B2, B3.
  destruct (merge_keeps_question s2 _ (generate_sql_keeps_inputs s2))
    as (C1 & C2 & C3). fold s3 in C1, C2, C3.
  destruct (merge_keeps_question s3 _ (execute_query_keeps_inputs s3))
    as (D1 & D2 & D3).
  assert (E : natural_language_query s3 = Some question /\
              max_results s3 = Some limit /\ explanation s3 = None).
  { rewrite C1, C2, C3, B1, B2, B3, A1, A2, A3. repeat split. }
  split; [ exact E | ].
  rewrite D1, D2, D3. exact E.
Qed.

Lemma error_not_blank_at_execution (question : str) (limit : Z) :
  error_not_blank (after_execution self (initial_state question limit)).
Proof.
  unfold after_execution, after_generation, after_context, after_schema.
  cbv zeta.
  repeat apply merge_error_not_blank;
    auto using get_schema_error_not_blank, get_rag_context_error_not_blank,
      generate_sql_error_not_blank, execute_query_error_not_blank.
  unfold error_not_blank. cbn. discriminate.
Qed.

End QueryStages.

(* ================================================================= *)
(** ** The three ways a query run can end *)

Section QueryOutcomes.

Import QueryWorkflow.

Variable self : QueryWorkflow.t.

Lemma query_outcome (question : str) (limit : Z) :
  let s3 := after_generation self (initial_state question limit) in
  let s4 := after_execution self (initial_state question limit) in
  (check_sql_validity s3 = "invalid"%string /\
   stages_run self question limit =
     ["get_schema"; "get_rag_context"; "generate_sql"; "handle_error"]%string /\
   LangGraph.ainvoke merge (_build_graph self) (initial_state question limit) =
     Ok (merge s3 (handle_error self s3)))
  \/
  (check_sql_validity s3 = "valid"%string /\
   check_execution_success s4 = "error"%string /\
   stages_run self question limit =
     ["get_schema"; "get_rag_context"; "generate_sql"; "execute_query";
      "handle_error"]%string /\
   LangGraph.ainvoke merge (_build_graph self) (initial_state question limit) =
     Ok (merge s4 (handle_error self s4)))
  \/
  (check_sql_validity s3 = "valid"%string /\
   check_execution_success s4 = "success"%string /\
   stages_run self question limit =
     ["get_schema"; "get_rag_context"; "generate_sql"; "execute_query";
      "explain_results"]%string /\
   LangGraph.ainvoke merge (_build_graph self) (initial_state question limit) =
     Ok (merge s4 (explain_results self s4))).
Proof.
  cbv zeta. unfold stages_run, LangGraph.visited, LangGraph.ainvoke.
  change (LangGraph.entry_point (_build_graph self)) with "get_schema"%string.
  rewrite query_run_unfold. cbv zeta.
  destruct (check_sql_validity_cases
              (after_generation self (initial_state question limit)))
    as [E | E]; rewrite E; cbn [String.eqb Ascii.eqb Bool.eqb].
  - destruct (check_execution_success_cases
                (after_execution self (initial_state question limit)))
      as [E' | E']; rewrite E'; cbn [String.eqb Ascii.eqb Bool.eqb fst snd].
    + right. right. repeat split.
    + right. left. repeat split.
  - left. cbn [fst snd]. repeat split.
Qed.

(** A state that carries an error text is routed to [handle_error]. *)
Lemma error_is_invalid (state : QueryState) (msg : str) :
  error state = Some msg -> msg <> [] ->
  check_sql_validity state = "invalid"%string.
Proof.
  intros E Hm. unfold check_sql_validity. rewrite E.
  destruct msg; [ contradiction | reflexivity ].
Qed.

(** What [handle_error] leaves behind. *)
Lemma handle_error_result (state : QueryState) (msg : str) :
  error state = Some msg ->
  error (merge state (handle_error self state)) = Some msg /\
  success (merge state (handle_error self state)) = Some false.
Proof.
  intros E. unfold handle_error, merge, failure. cbn. rewrite E. cbn. auto.
Qed.

End QueryOutcomes.

(* ================================================================= *)
(** ** Rejection and rewriting of model answers *)

Section Rejection.

Import LLMService QueryWorkflow.

Lemma literal_prefix_not_blank (prefix : string) (rest : str) :
  prefix <> EmptyString -> lit prefix ++ rest <> [].
Proof.
  destruct prefix; [ contradiction | ]. intros _. cbn. discriminate.
Qed.

(** When the cleaned answer is refused by the gate, or the answer holds no
    SELECT at all, [generate_sql] writes an error and no statement. *)
Lemma generate_sql_rejects (self : QueryWorkflow.t) (answer : str)
    (state : QueryState) :
  (forall messages, ainvoke (llm_service self) messages = Ok answer) ->
  (forall sql, _clean_sql_query (strip answer) = Ok sql ->
               _is_query_safe sql = false) ->
  exists msg, generate_sql self state = failure msg /\ msg <> [].
Proof.
  intros Hanswer Hrefused. unfold generate_sql, try_except.
  destruct (negb (truthy_opt (fun _ => true) (rag_context state))).
  - eexists. split; [ reflexivity | ]. cbn. discriminate.
  - unfold getitem, bind.
    destruct (natural_language_query state) as [ question | ];
      [ | eexists; split; [ reflexivity | cbn; discriminate ] ].
    destruct (rag_context state) as [ context | ];
      [ | eexists; split; [ reflexivity | cbn; discriminate ] ].
    unfold generate_sql_query, bind. rewrite Hanswer.
    destruct (_clean_sql_query (strip answer)) as [ sql | e ] eqn:E.
    + rewrite (Hrefused sql eq_refl).
      eexists. split; [ reflexivity | cbn; discriminate ].
    + eexists. split; [ reflexivity | ].
      apply literal_prefix_not_blank. discriminate.
Qed.

(** C1, counterexample.  The answer [DROP TABLE users; SELECT 1] is not
    safe as it stands, yet it is cut down to [SELECT 1], which is: the run
    goes on to [execute_query] and ends with success and no error. *)
Lemma unsafe_answer_is_cut_to_its_select :
  _is_query_safe (lit "DROP TABLE users; SELECT 1") = false /\
  _clean_sql_query (lit "DROP TABLE users; SELECT 1") = Ok (lit "SELECT 1") /\
  stages_run
    (Fixtures.query_workflow "DROP TABLE users; SELECT 1" [Fixtures.one_row])
    (lit "list the users") 50 =
    ["get_schema"; "get_rag_context"; "generate_sql"; "execute_query";
     "explain_results"]%string /\
  process_query
    (Fixtures.query_workflow "DROP TABLE users; SELECT 1" [Fixtures.one_row])
    (lit "list the users") 50 =
    FullResult (Some (lit "SELECT 1")) (Some [Fixtures.one_row])
      (Some (lit "DROP TABLE users; SELECT 1")) true None.
Proof. repeat split; vm_compute; reflexivity. Qed.

(** C1, amended.  The answer is first cleaned: code fences are removed, the
    text is trimmed and, when it does not begin with SELECT, cut to start at
    its first SELECT.  When the cleaned text is refused by the
    generation-time gate, or the answer holds no SELECT at all, the answer
    is rejected: the run goes from [generate_sql] to [handle_error],
    executes nothing, and ends with success=false and a non-empty error. *)
Theorem refused_answer_ends_in_handle_error (self : QueryWorkflow.t)
    (question answer : str) (limit : Z) :
  (forall messages, ainvoke (llm_service self) messages = Ok answer) ->
  (forall sql, _clean_sql_query (strip answer) = Ok sql ->
               _is_query_safe sql = false) ->
  exists sql rows text msg,
    process_query self question limit = FullResult sql rows text false (Some msg) /\
    msg <> [] /\
    stages_run self question limit =
      ["get_schema"; "get_rag_context"; "generate_sql"; "handle_error"]%string.
Proof.
  intros Hanswer Hrefused.
  pose proof (query_outcome self question limit) as Hrun. cbv zeta in Hrun.
  unfold after_execution in Hrun. cbv zeta in Hrun.
  unfold after_generation in Hrun. cbv zeta in Hrun.
  set (s2 := after_context self (initial_state question limit)) in *.
  destruct (generate_sql_rejects self answer s2 Hanswer Hrefused)
    as (msg & Egen & Hmsg).
  rewrite Egen in Hrun.
  set (s3 := merge s2 (failure msg)) in *.
  assert (Eerr : error s3 = Some msg) by reflexivity.
  pose proof (error_is_invalid s3 msg Eerr Hmsg) as Hinvalid.
  destruct Hrun as [(_ & Hstages & Hfinal)
                   | [(Hvalid & _) | (Hvalid & _)]];
    try (rewrite Hinvalid in Hvalid; discriminate).
  destruct (handle_error_result self s3 msg Eerr) as (E1 & E2).
  unfold process_query. rewrite Hfinal.
  exists (generated_sql (merge s3 (handle_error self s3))),
         (execution_result (merge s3 (handle_error self s3))),
         (explanation (merge s3 (handle_error self s3))), msg.
  rewrite E1, E2. repeat split; assumption.
Qed.

(** An answer without any SELECT, refused on a concrete run. *)
Lemma refused_answer_witness :
  exists sql rows text msg,
    process_query (Fixtures.query_workflow "DROP TABLE users" [Fixtures.one_row])
      (lit "list the users") 50 = FullResult sql rows text false (Some msg) /\
    msg <> [] /\
    stages_run (Fixtures.query_workflow "DROP TABLE users" [Fixtures.one_row])
      (lit "list the users") 50 =
      ["get_schema"; "get_rag_context"; "generate_sql"; "handle_error"]%string.
Proof.
  apply (refused_answer_ends_in_handle_error
           (Fixtures.query_workflow "DROP TABLE users" [Fixtures.one_row])
           (lit "list the users") (lit "DROP TABLE users") 50).
  - intros messages. reflexivity.
  - intros sql E. vm_compute in E. discriminate E.
Defined.

End Rejection.

(* ================================================================= *)
(** ** Retrieval failures do not stop the query pipeline *)

Section Degradation.

Import LLMService QueryWorkflow.

Lemma search_down_is_empty (rag : RAGService.t) (store : RAGService.VectorStore)
    (query : str) (k : Z) :
  RAGService.vector_store rag = Some store ->
  (forall q n, exists e, RAGService.similarity_search store q n = Raise e) ->
  RAGService.search_relevant_info rag query k = [].
Proof.
  intros Hstore Hdown. unfold RAGService.search_relevant_info.
  rewrite Hstore. destruct (Hdown query k) as [e ->]. reflexivity.
Qed.

Lemma generate_sql_query_safe (llm : LLMService.t) (question : str)
    (context : RagContext) (sql : str) :
  generate_sql_query llm question context = Ok sql -> _is_query_safe sql = true.
Proof.
  unfold generate_sql_query, bind.
  destruct (ainvoke llm _); [ | discriminate ].
  destruct (_clean_sql_query _); [ | discriminate ].
  destruct (_is_query_safe a0) eqn:E; [ | discriminate ].
  intros H. injection H as <-. exact E.
Qed.

Lemma safe_begins_with_select (sql : str) :
  _is_query_safe sql = true -> startswith (lit "SELECT") (upper sql) = true.
Proof.
  unfold _is_query_safe.
  destruct (startswith (lit "SELECT") (upper sql)); [ reflexivity | discriminate ].
Qed.

(** C4.  Let the schema fetch return a non-empty schema, let every call of
    the retrieval store raise, and let the model produce a statement that
    passes the generation-time gate and holds no [ERROR:] sentinel.  Then
    [get_rag_context] writes the empty context (no snippets, no best
    practices, the full schema) and no error, and the run goes through
    [execute_query]: retrieval did not send it to [handle_error]. *)
Theorem retrieval_failure_still_reaches_execute (self : QueryWorkflow.t)
    (store : RAGService.VectorStore) (tables : Schema)
    (question sql : str) (limit : Z) :
  RAGService.vector_store (rag_service self) = Some store ->
  (forall q n, exists e, RAGService.similarity_search store q n = Raise e) ->
  DatabaseService.get_schema (db_service self) = Ok tables ->
  tables <> [] ->
  generate_sql_query (llm_service self) question
    {| schema_info := []; best_practices := []; full_schema := tables |} = Ok sql ->
  contains (lit "ERROR:") (upper sql) = false ->
  get_rag_context self (after_schema self (initial_state question limit)) =
    {| natural_language_query := None; max_results := None; schema := None;
       rag_context :=
         Some {| schema_info := []; best_practices := []; full_schema := tables |};
       generated_sql := None; execution_result := None; explanation := None;
       error := None; success := None |} /\
  error (after_context self (initial_state question limit)) = None /\
  exists last,
    stages_run self question limit =
      ["get_schema"%string; "get_rag_context"%string; "generate_sql"%string;
       "execute_query"%string; last].
Proof.
  intros Hstore Hdown Hschema Htables Hgen Hsentinel.
  set (s0 := initial_state question limit).
  assert (E1 : after_schema self s0 =
    {| natural_language_query := Some question; max_results := Some limit;
       schema := Some tables; rag_context := None; generated_sql := None;
       execution_result := None; explanation := None; error := None;
       success := Some false |}).
  { unfold after_schema, get_schema, try_except, bind.
    rewrite Hschema. reflexivity. }
  assert (E2 : get_rag_context self (after_schema self s0) =
    {| natural_language_query := None; max_results := None; schema := None;
       rag_context :=
         Some {| schema_info := []; best_practices := []; full_schema := tables |};
       generated_sql := None; execution_result := None; explanation := None;
       error := None; success := None |}).
  { rewrite E1. unfold get_rag_context, try_except, bind, getitem.
    cbn [schema natural_language_query truthy_opt].
    destruct tables as [ | table tables ]; [ contradiction | ].
    cbn [nonempty negb]. unfold RAGService.get_query_context.
    rewrite !(search_down_is_empty _ store _ _ Hstore Hdown). reflexivity. }
  assert (E3 : after_generation self s0 =
    {| natural_language_query := Some question; max_results := Some limit;
       schema := Some tables;
       rag_context :=
         Some {| schema_info := []; best_practices := []; full_schema := tables |};
       generated_sql := Some sql;
       execution_result := None; explanation := None; error := None;
       success := Some false |}).
  { unfold after_generation, after_context. cbv zeta. rewrite E2, E1.
    unfold generate_sql, try_except, bind, getitem, merge. cbn.
    unfold bind. rewrite Hgen. reflexivity. }
  split; [ exact E2 | ]. split.
  { unfold after_context. cbv zeta. rewrite E2, E1. reflexivity. }
  assert (Hvalid : check_sql_validity (after_generation self s0) = "valid"%string).
  { rewrite E3. unfold check_sql_validity. cbn [error generated_sql truthy_opt get_or].
    pose proof (safe_begins_with_select sql
                  (generate_sql_query_safe _ _ _ _ Hgen)) as Hsel.
    rewrite Hsel, Hsentinel.
    destruct sql; [ discriminate Hsel | reflexivity ]. }
  destruct (query_outcome self question limit)
    as [(Hinv & _) | [(_ & _ & Hstages & _) | (_ & _ & Hstages & _)]].
  - fold s0 in Hinv. rewrite Hvalid in Hinv. discriminate.
  - eexists. exact Hstages.
  - eexists. exact Hstages.
Qed.

(** The model answers [SELECT 1] while the store refuses every call. *)
Lemma retrieval_failure_witness :
  exists last,
    stages_run (Fixtures.query_workflow "SELECT 1" [Fixtures.one_row])
      (lit "how many users") 50 =
      ["get_schema"%string; "get_rag_context"%string; "generate_sql"%string;
       "execute_query"%string; last].
Proof.
  refine (proj2 (proj2
    (retrieval_failure_still_reaches_execute
       (Fixtures.query_workflow "SELECT 1" [Fixtures.one_row])
       Fixtures.store_down Fixtures.users_schema
       (lit "how many users") (lit "SELECT 1") 50 _ _ _ _ _ _))).
  - reflexivity.
  - intros q n. eexists. reflexivity.
  - reflexivity.
  - discriminate.
  - vm_compute. reflexivity.
  - vm_compute. reflexivity.
Defined.

End Degradation.

(* ================================================================= *)
(** ** The execute stage *)

Section Execution.

Import QueryWorkflow.

Lemma execution_safe_is_truthy (sql : str) :
  DatabaseService.is_safe_query sql = true -> truthy sql = true.
Proof. destruct sql; [ vm_compute; discriminate | reflexivity ]. Qed.

Lemma slice_to_length {A : Type} (l : list A) (n : Z) :
  (0 <= n)%Z ->
  slice_to l n = firstn (Z.to_nat n) l /\
  (Z.of_nat (List.length (slice_to l n)) <= n)%Z.
Proof.
  intros Hn. unfold slice_to.
  destruct (0 <=? n)%Z eqn:E; [ | apply Z.leb_gt in E; lia ].
  split; [ reflexivity | ].
  pose proof (firstn_le_length (Z.to_nat n) l). lia.
Qed.

(** C8.  When [execute_query] runs a statement that passes the
    execution-time gate and the database answers, the stage writes the rows
    cut to the first [max_results] of them (50 when the state holds no
    limit), so at most the requested count, and writes success = true and
    no error.  The requested count is the [max_results] the caller gave. *)
Theorem execute_query_truncates (self : QueryWorkflow.t) (state : QueryState)
    (sql : str) (rows : list Row) :
  generated_sql state = Some sql ->
  DatabaseService.is_safe_query sql = true ->
  DatabaseService.execute_query (db_service self) sql = Ok rows ->
  (0 <= get_or 50%Z (max_results state))%Z ->
  execution_result (execute_query self state) =
    Some (firstn (Z.to_nat (get_or 50%Z (max_results state))) rows) /\
  (forall out, execution_result (execute_query self state) = Some out ->
     (Z.of_nat (List.length out) <= get_or 50%Z (max_results state))%Z) /\
  success (execute_query self state) = Some true /\
  error (execute_query self state) = None /\
  (forall question limit,
     max_results (after_generation self (initial_state question limit)) =
       Some limit) /\
  default_max_results = 50%Z.
Proof.
  intros Hsql Hsafe Hrows Hlimit.
  assert (E : execute_query self state =
    {| natural_language_query := None; max_results := None; schema := None;
       rag_context := None; generated_sql := None;
       execution_result :=
         Some (slice_to rows (get_or 50%Z (max_results state)));
       explanation := None; error := None; success := Some true |}).
  { unfold execute_query, try_except, bind, getitem. rewrite Hsql.
    cbn [truthy_opt]. rewrite (execution_safe_is_truthy sql Hsafe).
    cbn [negb]. rewrite Hsafe. cbn [negb]. rewrite Hrows. reflexivity. }
  rewrite E. cbn [execution_result success error].
  destruct (slice_to_length rows _ Hlimit) as (Es & Hlen).
  repeat split.
  - rewrite Es. reflexivity.
  - intros out Hout. injection Hout as <-. exact Hlen.
  - intros question limit.
    apply (proj1 (inputs_at_execution self question limit)).
Qed.

(** With a negative limit Python's slice drops rows from the end, so the
    bound of the theorem needs the limit to be a count. *)
Lemma negative_limit_drops_from_the_end :
  slice_to [Fixtures.one_row; Fixtures.one_row; Fixtures.one_row] (-1) =
    [Fixtures.one_row; Fixtures.one_row].
Proof. reflexivity. Qed.

(** Three rows under a limit of two. *)
Lemma execute_query_truncates_witness :
  execution_result
    (execute_query
       (Fixtures.query_workflow "SELECT 1"
          [Fixtures.one_row; Fixtures.one_row; Fixtures.one_row])
       (after_generation
          (Fixtures.query_workflow "SELECT 1"
             [Fixtures.one_row; Fixtures.one_row; Fixtures.one_row])
          (initial_state (lit "how many users") 2))) =
    Some [Fixtures.one_row; Fixtures.one_row].
Proof.
  refine (proj1
    (execute_query_truncates
       (Fixtures.query_workflow "SELECT 1"
          [Fixtures.one_row; Fixtures.one_row; Fixtures.one_row])
       (after_generation
          (Fixtures.query_workflow "SELECT 1"
             [Fixtures.one_row; Fixtures.one_row; Fixtures.one_row])
          (initial_state (lit "how many users") 2))
       (lit "SELECT 1")
       [Fixtures.one_row; Fixtures.one_row; Fixtures.one_row] _ _ _ _)).
  - vm_compute. reflexivity.
  - vm_compute. reflexivity.
  - reflexivity.
  - vm_compute. discriminate.
Defined.

End Execution.

(* ================================================================= *)
(** ** The result of a query run *)

Section QueryResults.

Import QueryWorkflow.

Variable self : QueryWorkflow.t.

Lemma error_not_blank_at_generation (question : str) (limit : Z) :
  error_not_blank (after_generation self (initial_state question limit)).
Proof.
  unfold after_generation, after_context, after_schema.
  cbv zeta.
  repeat apply merge_error_not_blank;
    auto using get_schema_error_not_blank, get_rag_context_error_not_blank,
      generate_sql_error_not_blank.
  unfold error_not_blank. cbn. discriminate.
Qed.

(** [LLMService.explain_results] returns the trimmed answer of the model,
    or the fallback sentence when the call fails. *)
Lemma explanation_is_answer_or_fallback (llm : LLMService.t) (sql : str)
    (rows : list Row) (question : str) :
  (exists messages response,
     LLMService.ainvoke llm messages = Ok response /\
     LLMService.explain_results llm sql rows question = strip response) \/
  ((exists messages e, LLMService.ainvoke llm messages = Raise e) /\
   LLMService.explain_results llm sql rows question =
     LLMService.fallback_explanation).
Proof.
  unfold LLMService.explain_results, try_except, bind.
  match goal with
  | |- context [LLMService.ainvoke llm ?m] =>
      destruct (LLMService.ainvoke llm m) as [ response | e ] eqn:E
  end.
  - left. eexists. exists response. split; [ exact E | reflexivity ].
  - right. split; [ eexists; exists e; exact E | reflexivity ].
Qed.

(** The final state of a run that passed [execute_query] successfully. *)
Lemma success_path_fields (state : QueryState) (question : str) :
  natural_language_query state = Some question ->
  explanation state = None ->
  error_not_blank state ->
  check_sql_validity state = "valid"%string ->
  check_execution_success (merge state (execute_query self state)) =
    "success"%string ->
  exists statement result,
    let s4 := merge state (execute_query self state) in
    let final := merge s4 (explain_results self s4) in
    generated_sql final = Some statement /\
    execution_result final = Some result /\
    error final = None /\
    success final = Some true /\
    (result <> [] ->
       explanation final =
         Some (LLMService.explain_results (llm_service self)
                 statement result question)) /\
    (result = [] -> explanation final = None).
Proof.
  destruct state as [nlq lim sch ctx gsql res expl err succ].
  cbn [natural_language_query explanation]. intros -> -> Hblank Hvalid.
  unfold error_not_blank in Hblank. cbn [error] in Hblank.
  unfold check_sql_validity in Hvalid. cbn [error generated_sql] in Hvalid.
  assert (Herr : err = None).
  { destruct err as [ [ | c m ] | ]; try reflexivity;
      [ contradiction | cbn in Hvalid; discriminate ]. }
  subst err.
  destruct gsql as [ [ | c statement ] | ];
    try (cbn in Hvalid; discriminate).
  clear Hvalid Hblank.
  unfold execute_query, try_except, bind, getitem, failure.
  cbn [generated_sql truthy_opt truthy negb max_results].
  destruct (negb (DatabaseService.is_safe_query (c :: statement)));
    [ cbn; discriminate | ].
  destruct (DatabaseService.execute_query (db_service self) (c :: statement))
    as [ rows | e ]; [ | cbn; discriminate ].
  intros _. exists (c :: statement), (slice_to rows (get_or 50%Z lim)).
  cbv zeta. unfold explain_results, try_except, bind, getitem.
  cbn [merge over generated_sql execution_result natural_language_query
       truthy_opt truthy negb orb].
  destruct (slice_to rows (get_or 50%Z lim)) as [ | row result ].
  - cbn. repeat split. intros H. contradiction.
  - cbn. repeat split. intros H. discriminate.
Qed.

(** C9, counterexample.  A statement that returns no row: the run succeeds
    and the explanation is absent. *)
Lemma empty_result_has_no_explanation :
  process_query (Fixtures.query_workflow "SELECT 1" []) (lit "how many users") 50 =
    FullResult (Some (lit "SELECT 1")) (Some []) None true None.
Proof. vm_compute. reflexivity. Qed.

(** C9, amended.  Every result of [process_query] has the five fields.  When
    success is true the error is absent, the statement and the rows are
    present, and the explanation is present exactly when at least one row
    was returned: it is then the model's trimmed answer, or the fallback
    sentence when the model call fails.  When success is false the error
    is present. *)
Theorem query_result_shape (question : str) (limit : Z) :
  exists sql rows text ok err,
    process_query self question limit = FullResult sql rows text ok err /\
    (ok = true -> err = None) /\
    (ok = false -> exists msg, err = Some msg) /\
    (ok = true ->
     exists statement result,
       sql = Some statement /\ rows = Some result /\
       (result = [] -> text = None) /\
       (result <> [] ->
        exists e,
          text = Some e /\
          ((exists messages response,
              LLMService.ainvoke (llm_service self) messages = Ok response /\
              e = strip response) \/
           ((exists messages ex,
               LLMService.ainvoke (llm_service self) messages = Raise ex) /\
            e = LLMService.fallback_explanation)))).
Proof.
  unfold process_query.
  destruct (query_outcome self question limit)
    as [(_ & _ & ->) | [(_ & _ & _ & ->) | (Hvalid & Hsuccess & _ & ->)]].
  - do 3 eexists. exists false. eexists. split; [ reflexivity | ].
    repeat split; try discriminate.
    intros _. unfold handle_error, merge, failure. cbn. eexists. reflexivity.
  - do 3 eexists. exists false. eexists. split; [ reflexivity | ].
    repeat split; try discriminate.
    intros _. unfold handle_error, merge, failure. cbn. eexists. reflexivity.
  - unfold after_execution in *. cbv zeta in *.
    destruct (inputs_at_execution self question limit)
      as ((Hq & _ & Hexpl) & _).
    destruct (success_path_fields _ question Hq Hexpl
                (error_not_blank_at_generation question limit)
                Hvalid Hsuccess)
      as (statement & result & Hfinal).
    cbv zeta in Hfinal.
    destruct Hfinal as (Hsql & Hrows & Herr & Hok & Htext & Hnone).
    do 5 eexists. split; [ reflexivity | ].
    rewrite Hsql, Hrows, Herr, Hok. cbn [get_or].
    repeat split; try discriminate.
    intros _. exists statement, result. repeat split.
    + exact Hnone.
    + intros Hresult. eexists. split; [ apply Htext; exact Hresult | ].
      apply explanation_is_answer_or_fallback.
Qed.

End QueryResults.

(* ================================================================= *)
(** ** Runs of the ingestion pipeline *)

Section UploadRuns.

Import UploadWorkflow.

Variable self : UploadWorkflow.t.

Lemma check_documents_created_cases (state : UploadState) :
  check_documents_created state = "success"%string \/
  check_documents_created state = "error"%string.
Proof.
  unfold check_documents_created.
  destruct (_ || _); [ right | left ]; reflexivity.
Qed.

Lemma check_upload_success_cases (state : UploadState) :
  check_upload_success state = "success"%string \/
  check_upload_success state = "error"%string.
Proof.
  unfold check_upload_success.
  destruct (_ || _); [ right | left ]; reflexivity.
Qed.

Ltac step_graph :=
  rewrite LangGraph_run_step;
  cbn [LangGraph.lookup LangGraph.next_node LangGraph.nodes LangGraph.edges
       LangGraph.END _build_graph String.eqb Ascii.eqb Bool.eqb].

Lemma upload_outcome (fs : list FileInfo) :
  let s3 := after_documents self (initial_state fs) in
  let s4 := after_insertion self (initial_state fs) in
  (check_documents_created s3 = "error"%string /\
   stages_run self fs =
     ["validate_files"; "extract_text"; "create_documents";
      "handle_error"]%string /\
   LangGraph.ainvoke merge (_build_graph self) (initial_state fs) =
     Ok (merge s3 (handle_error self s3)))
  \/
  (check_documents_created s3 = "success"%string /\
   check_upload_success s4 = "error"%string /\
   stages_run self fs =
     ["validate_files"; "extract_text"; "create_documents";
      "add_to_vector_store"; "handle_error"]%string /\
   LangGraph.ainvoke merge (_build_graph self) (initial_state fs) =
     Ok (merge s4 (handle_error self s4)))
  \/
  (check_documents_created s3 = "success"%string /\
   check_upload_success s4 = "success"%string /\
   stages_run self fs =
     ["validate_files"; "extract_text"; "create_documents";
      "add_to_vector_store"]%string /\
   LangGraph.ainvoke merge (_build_graph self) (initial_state fs) = Ok s4).
Proof.
  cbv zeta. unfold stages_run, LangGraph.visited, LangGraph.ainvoke.
  change (LangGraph.entry_point (_build_graph self)) with "validate_files"%string.
  unfold LangGraph.recursion_limit.
  unfold after_insertion, after_documents, after_extraction, after_validation.
  cbv zeta.
  set (s0 := initial_state fs).
  set (s1 := merge s0 (validate_files self s0)).
  set (s2 := merge s1 (extract_text self s1)).
  set (s3 := merge s2 (create_documents self s2)).
  set (s4 := merge s3 (add_to_vector_store self s3)).
  do 3 step_graph. fold s1 s2 s3.
  destruct (check_documents_created_cases s3) as [E | E]; rewrite E;
    cbn [LangGraph.lookup String.eqb Ascii.eqb Bool.eqb].
  - step_graph. fold s4.
    destruct (check_upload_success_cases s4) as [E' | E']; rewrite E';
      cbn [LangGraph.lookup String.eqb Ascii.eqb Bool.eqb fst snd].
    + right. right. repeat split.
    + step_graph. cbn [fst snd]. right. left. repeat split.
  - step_graph. cbn [fst snd]. left. repeat split.
Qed.

End UploadRuns.

(* ================================================================= *)
(** ** Extraction failures stay with their file *)

Section PartialFailure.

Import TextExtraction UploadWorkflow.

Variable self : UploadWorkflow.t.

Lemma validated_complete (fs : list FileInfo) :
  Forall complete (validated fs).
Proof.
  induction fs as [ | f fs IH ]; simpl; [ constructor | ].
  destruct (filename f) as [ name | ]; [ | exact IH ].
  destruct (content f) as [ data | ]; [ | exact IH ].
  destruct (negb (truthy name) || negb (nonempty data)); [ exact IH | ].
  constructor; [ | exact IH ].
  unfold complete. cbn. repeat split; eexists; reflexivity.
Qed.

Lemma extract_one_complete (f : FileInfo) :
  complete f -> extract_one self f = Ok (entry_of self f).
Proof.
  intros ((name & Hn) & (data & Hd) & (ext & He)).
  unfold extract_one, entry_of, bind, getitem.
  rewrite Hn, Hd, He. cbn [get_or].
  destruct (extract_text_from_file (extraction self) data ext); reflexivity.
Qed.

Lemma extract_all_complete (fs : list FileInfo) :
  Forall complete fs -> extract_all self fs = Ok (map (entry_of self) fs).
Proof.
  induction 1 as [ | f fs Hf _ IH ]; cbn [extract_all map]; [ reflexivity | ].
  rewrite (extract_one_complete f Hf), IH. reflexivity.
Qed.

(** Every failure of the extraction module prints as a non-empty text. *)
Lemma extraction_error_not_blank (data : bytes) (ext : str) (e : exn) :
  extract_text_from_file (extraction self) data ext = Raise e ->
  str_of_exn e <> [].
Proof.
  unfold extract_text_from_file, extract_text_from_pdf, extract_text_from_docx.
  intros H.
  repeat match type of H with
         | context [match ?x with _ => _ end] =>
             lazymatch x with
             | context [match _ with _ => _ end] => fail
             | _ => destruct x
             end
         | context [if ?x then _ else _] => destruct x
         end;
    try discriminate H; injection H as <-; cbn; discriminate.
Qed.

Lemma failing_entry_is_annotated (f : FileInfo) :
  extraction_fails self f = true ->
  exists msg, text_error (entry_of self f) = Some msg /\ truthy msg = true.
Proof.
  unfold extraction_fails, entry_of. cbv zeta.
  destruct (extract_text_from_file _ _ _) as [ text | e ] eqn:E;
    [ discriminate | ].
  intros _. exists (str_of_exn e). split; [ reflexivity | ].
  pose proof (extraction_error_not_blank _ _ _ E) as Hne.
  destruct (str_of_exn e); [ contradiction | reflexivity ].
Qed.

Lemma clean_entry_has_no_error (f : FileInfo) :
  extraction_fails self f = false -> text_error (entry_of self f) = None.
Proof.
  unfold extraction_fails, entry_of. cbv zeta.
  destruct (extract_text_from_file _ _ _); [ reflexivity | discriminate ].
Qed.

(** [create_documents] keeps exactly the files whose extraction succeeded. *)
Lemma documents_of_entries (fs : list FileInfo) :
  documents_of self (map (entry_of self) fs) =
  map (fun f => document_of self (entry_of self f))
      (filter (fun f => negb (extraction_fails self f)) fs).
Proof.
  induction fs as [ | f fs IH ]; cbn [map documents_of filter];
    [ reflexivity | ].
  destruct (extraction_fails self f) eqn:E; cbn [negb].
  - destruct (failing_entry_is_annotated f E) as (msg & -> & Hm).
    cbn [truthy_opt]. rewrite Hm. exact IH.
  - rewrite (clean_entry_has_no_error f E). cbn [truthy_opt map].
    rewrite IH. reflexivity.
Qed.

Lemma clean_count {A : Type} (p : A -> bool) (l : list A) :
  List.length (filter (fun x => negb (p x)) l) =
  List.length l - List.length (filter p l).
Proof.
  induction l as [ | a l IH ]; cbn [filter List.length]; [ reflexivity | ].
  pose proof (filter_length_le p l) as Hle.
  destruct (p a); cbn [negb List.length]; lia.
Qed.

End PartialFailure.

Section Isolation.

Import TextExtraction UploadWorkflow.

(** C5.  Let N files pass validation and M of them fail text extraction.
    Every failing file is recorded with a non-empty error annotation, every
    other file without one; [create_documents] builds its documents from
    the N - M clean files only, one per file and in order, and hands their
    chunks on.  When the insertion call is made (the store handle is set
    and splitting produced at least one chunk, so N - M > 0) and returns,
    the run ends after [add_to_vector_store] with success = true and no
    error. *)
Theorem partial_failure_isolation (self : UploadWorkflow.t)
    (store : RAGService.VectorStore) (fs : list FileInfo) :
  let accepted := validated fs in
  let clean := filter (fun f => negb (extraction_fails self f)) accepted in
  let documents := map (fun f => document_of self (entry_of self f)) clean in
  let chunks := split_documents self documents in
  RAGService.vector_store (rag_service self) = Some store ->
  chunks <> [] ->
  RAGService.add_documents store chunks = Ok tt ->
  extracted_texts (after_extraction self (initial_state fs)) =
    Some (map (entry_of self) accepted) /\
  (forall f, In f accepted -> extraction_fails self f = true ->
     exists msg, text_error (entry_of self f) = Some msg /\ msg <> []) /\
  (forall f, In f accepted -> extraction_fails self f = false ->
     text_error (entry_of self f) = None) /\
  documents_of self (map (entry_of self) accepted) = documents /\
  List.length documents =
    List.length accepted - List.length (filter (extraction_fails self) accepted) /\
  0 < List.length documents /\
  processed_documents (after_documents self (initial_state fs)) = Some chunks /\
  stages_run self fs =
    ["validate_files"; "extract_text"; "create_documents";
     "add_to_vector_store"]%string /\
  out_success (process_upload self fs) = true /\
  out_error (process_upload self fs) = None.
Proof.
  cbv zeta. intros Hstore Hchunks Hadd.
  pose proof (validated_complete fs) as Hcomplete.
  pose proof (documents_of_entries self (validated fs)) as Hdocs.
  set (accepted := validated fs) in *.
  set (clean := filter (fun f => negb (extraction_fails self f)) accepted) in *.
  set (documents := map (fun f => document_of self (entry_of self f)) clean) in *.
  set (chunks := split_documents self documents) in *.
  assert (Hfs : nonempty fs = true).
  { destruct fs; [ | reflexivity ]. exfalso. apply Hchunks. reflexivity. }
  assert (Hacc : nonempty accepted = true).
  { destruct accepted; [ | reflexivity ]. exfalso. apply Hchunks. reflexivity. }
  assert (Hch : nonempty chunks = true).
  { destruct chunks; [ contradiction | reflexivity ]. }
  assert (E1 : after_validation self (initial_state fs) =
    {| files := Some accepted; extracted_texts := None;
       processed_documents := None; results := None; error := None;
       success := Some false |}).
  { unfold after_validation, validate_files, initial_state, merge.
    cbn [files get_or]. rewrite Hfs. reflexivity. }
  assert (E2 : after_extraction self (initial_state fs) =
    {| files := Some accepted;
       extracted_texts := Some (map (entry_of self) accepted);
       processed_documents := None; results := None; error := None;
       success := Some false |}).
  { unfold after_extraction. cbv zeta. rewrite E1.
    unfold extract_text, try_except, bind. cbn [files get_or].
    rewrite Hacc. cbn [negb].
    rewrite (extract_all_complete self accepted Hcomplete). reflexivity. }
  assert (E3 : after_documents self (initial_state fs) =
    {| files := Some accepted;
       extracted_texts := Some (map (entry_of self) accepted);
       processed_documents := Some chunks; results := None; error := None;
       success := Some false |}).
  { unfold after_documents. cbv zeta. rewrite E2.
    unfold create_documents. cbn [extracted_texts get_or].
    assert (Hent : nonempty (map (entry_of self) accepted) = true).
    { destruct accepted; [ discriminate Hacc | reflexivity ]. }
    rewrite Hent, Hdocs. reflexivity. }
  assert (E4 : after_insertion self (initial_state fs) =
    {| files := Some accepted;
       extracted_texts := Some (map (entry_of self) accepted);
       processed_documents := Some chunks;
       results := Some (map success_record chunks); error := None;
       success := Some true |}).
  { unfold after_insertion. cbv zeta. rewrite E3.
    unfold add_to_vector_store, try_except, bind.
    cbn [processed_documents get_or]. rewrite Hch, Hstore. cbn [negb].
    rewrite Hadd. reflexivity. }
  assert (Hlen : 0 < List.length documents).
  { destruct documents; [ exfalso; apply Hchunks; reflexivity | cbn; lia ]. }
  destruct (upload_outcome self fs)
    as [(Hc & _) | [(_ & Hu & _) | (_ & _ & Hstages & Hfinal)]].
  - rewrite E3 in Hc. unfold check_documents_created in Hc.
    cbn [error processed_documents truthy_opt] in Hc. rewrite Hch in Hc.
    discriminate Hc.
  - rewrite E4 in Hu. discriminate Hu.
  - repeat split.
    + rewrite E2. reflexivity.
    + intros f _ Hfail.
      destruct (failing_entry_is_annotated self f Hfail) as (msg & Hm & Ht).
      exists msg. split; [ exact Hm | ]. intros ->. discriminate Ht.
    + intros f _ Hok. apply clean_entry_has_no_error. exact Hok.
    + exact Hdocs.
    + unfold documents, clean. rewrite length_map. apply clean_count.
    + exact Hlen.
    + rewrite E3. reflexivity.
    + exact Hstages.
    + unfold process_upload. rewrite Hfinal, E4. reflexivity.
    + unfold process_upload. rewrite Hfinal, E4. reflexivity.
Qed.

(** Three files, of which the PDF cannot be read. *)
Lemma partial_failure_witness :
  out_success
    (process_upload (Fixtures.upload_workflow Fixtures.store_up)
       [Fixtures.upload "a.txt" "hello"; Fixtures.upload "b.pdf" "%PDF";
        Fixtures.upload "c.md" "notes"]) = true /\
  List.length
    (documents_of (Fixtures.upload_workflow Fixtures.store_up)
       (map (entry_of (Fixtures.upload_workflow Fixtures.store_up))
          (validated
             [Fixtures.upload "a.txt" "hello"; Fixtures.upload "b.pdf" "%PDF";
              Fixtures.upload "c.md" "notes"]))) = 2.
Proof.
  pose proof (partial_failure_isolation
    (Fixtures.upload_workflow Fixtures.store_up) Fixtures.store_up
    [Fixtures.upload "a.txt" "hello"; Fixtures.upload "b.pdf" "%PDF";
     Fixtures.upload "c.md" "notes"]) as H.
  cbv zeta in H.
  destruct H as (_ & _ & _ & Hdocs & _ & _ & _ & _ & Hok & _).
  - reflexivity.
  - vm_compute. discriminate.
  - reflexivity.
  - split; [ exact Hok | ]. rewrite Hdocs. vm_compute. reflexivity.
Defined.

End Isolation.

(* ================================================================= *)
(** ** The counts the ingestion pipeline reports *)

Section UploadCounts.

Import UploadWorkflow.

Lemma count_success_records (chunks : list Document) :
  count_status (lit "success") (map success_record chunks) = List.length chunks /\
  count_status (lit "error") (map success_record chunks) = 0.
Proof.
  unfold count_status.
  induction chunks as [ | doc chunks (IH1 & IH2) ]; [ split; reflexivity | ].
  cbn [map filter status success_record].
  change (TextExtraction.str_eqb (lit "success") (lit "success")) with true.
  change (TextExtraction.str_eqb (lit "success") (lit "error")) with false.
  cbn [List.length]. rewrite IH1, IH2. split; reflexivity.
Qed.

(** The state of a run that ended after a successful insertion. *)
Lemma insertion_success_fields (self : UploadWorkflow.t) (state : UploadState) :
  check_documents_created state = "success"%string ->
  check_upload_success (merge state (add_to_vector_store self state)) =
    "success"%string ->
  exists chunks,
    processed_documents state = Some chunks /\
    results (merge state (add_to_vector_store self state)) =
      Some (map success_record chunks) /\
    success (merge state (add_to_vector_store self state)) = Some true /\
    error (merge state (add_to_vector_store self state)) = error state.
Proof.
  destruct state as [fs entries docs res err succ].
  unfold check_documents_created. cbn [error processed_documents].
  destruct (truthy_opt truthy err) eqn:Herr; [ discriminate | ].
  destruct docs as [ [ | doc docs ] | ]; try discriminate. intros _.
  unfold add_to_vector_store, try_except, bind, failure.
  cbn [processed_documents get_or nonempty negb].
  destruct (RAGService.vector_store (rag_service self)) as [ store | ].
  - destruct (RAGService.add_documents store (doc :: docs)) as [ [] | e ].
    + intros _. exists (doc :: docs). repeat split.
    + unfold check_upload_success. cbn. discriminate.
  - unfold check_upload_success. cbn. discriminate.
Qed.

Lemma counts_follow_the_records (self : UploadWorkflow.t) (fs : list FileInfo) :
  processed_files (process_upload self fs) = List.length fs /\
  successful (process_upload self fs) =
    count_status (lit "success") (out_results (process_upload self fs)) /\
  failed (process_upload self fs) =
    count_status (lit "error") (out_results (process_upload self fs)) /\
  (out_success (process_upload self fs) = true ->
   exists chunks,
     processed_documents (after_documents self (initial_state fs)) = Some chunks /\
     out_results (process_upload self fs) = map success_record chunks /\
     successful (process_upload self fs) = List.length chunks /\
     failed (process_upload self fs) = 0).
Proof.
  unfold process_upload.
  destruct (upload_outcome self fs)
    as [(_ & _ & ->) | [(_ & _ & _ & ->) | (Hdocs & Hok & _ & ->)]];
    cbn [processed_files successful failed out_results out_success];
    (split; [ reflexivity | split; [ reflexivity | split; [ reflexivity | ] ] ]).
  - unfold merge, handle_error. cbn. discriminate.
  - unfold merge, handle_error. cbn. discriminate.
  - intros _. unfold after_insertion in *. cbv zeta in *.
    destruct (insertion_success_fields self _ Hdocs Hok)
      as (chunks & Hchunks & Hres & _).
    exists chunks. rewrite Hres. cbn [get_or].
    destruct (count_success_records chunks) as (C1 & C2).
    repeat split; assumption.
Qed.

Lemma one_file_two_chunks :
  processed_files
    (process_upload (Fixtures.upload_workflow Fixtures.store_up)
       [Fixtures.upload "a.txt" "hello"]) = 1 /\
  successful
    (process_upload (Fixtures.upload_workflow Fixtures.store_up)
       [Fixtures.upload "a.txt" "hello"]) = 2.
Proof. split; vm_compute; reflexivity. Qed.

(** C10.  [processed_files] is the number of files the caller submitted.
    [successful] and [failed] count the result records of the final state
    by status.  On a successful run those records are one per chunk that
    splitting produced, so [successful] is the number of chunks and
    [failed] is 0; the number of chunks can exceed the number of files
    (here one file cut into two chunks). *)
Theorem upload_counts (self : UploadWorkflow.t) (fs : list FileInfo) :
  processed_files (process_upload self fs) = List.length fs /\
  successful (process_upload self fs) =
    count_status (lit "success") (out_results (process_upload self fs)) /\
  failed (process_upload self fs) =
    count_status (lit "error") (out_results (process_upload self fs)) /\
  (out_success (process_upload self fs) = true ->
   exists chunks,
     processed_documents (after_documents self (initial_state fs)) = Some chunks /\
     out_results (process_upload self fs) = map success_record chunks /\
     successful (process_upload self fs) = List.length chunks /\
     failed (process_upload self fs) = 0) /\
  (processed_files
     (process_upload (Fixtures.upload_workflow Fixtures.store_up)
        [Fixtures.upload "a.txt" "hello"]) = 1 /\
   successful
     (process_upload (Fixtures.upload_workflow Fixtures.store_up)
        [Fixtures.upload "a.txt" "hello"]) = 2).
Proof.
  destruct (counts_follow_the_records self fs) as (H1 & H2 & H3 & H4).
  repeat split; try assumption; apply one_file_two_chunks.
Qed.

(** C6.  Two files are submitted; the empty one is dropped by
    [validate_files], the insertion raises, and [handle_error] writes a
    single failure record: the dropped file has none, while
    [processed_files] still counts both. *)
Lemma handle_error_skips_dropped_file :
  stages_run (Fixtures.upload_workflow Fixtures.store_down)
    [Fixtures.upload "notes.txt" "hello"; Fixtures.upload "empty.txt" ""] =
    ["validate_files"; "extract_text"; "create_documents";
     "add_to_vector_store"; "handle_error"]%string /\
  processed_files
    (process_upload (Fixtures.upload_workflow Fixtures.store_down)
       [Fixtures.upload "notes.txt" "hello"; Fixtures.upload "empty.txt" ""]) = 2 /\
  map result_filename
    (out_results
       (process_upload (Fixtures.upload_workflow Fixtures.store_down)
          [Fixtures.upload "notes.txt" "hello"; Fixtures.upload "empty.txt" ""])) =
    [lit "notes.txt"] /\
  out_results
    (process_upload (Fixtures.upload_workflow Fixtures.store_up)
       [Fixtures.upload "empty.txt" ""]) = [] /\
  out_success
    (process_upload (Fixtures.upload_workflow Fixtures.store_up)
       [Fixtures.upload "empty.txt" ""]) = false.
Proof. repeat split; vm_compute; reflexivity. Qed.

(** What [handle_error] does write: one failure record for every file
    still listed in the state, that is, for every file that passed
    validation. *)
Lemma handle_error_records_listed_files (self : UploadWorkflow.t)
    (state : UploadState) :
  results (handle_error self state) =
    Some (map (error_record (get_or (lit "Unknown error occurred") (error state)))
              (get_or [] (files state))).
Proof. reflexivity. Qed.

End UploadCounts.

(* ================================================================= *)
(** ** Termination and revisits *)

Section Termination.

(** C7, counterexample.  On a hand-built graph with a cycle the engine runs
    the node [tick] twice and returns normally; on a cycle without exit it
    keeps revisiting until the step limit, and only then raises. *)
Lemma cycle_is_revisited_without_fault :
  LangGraph.visited Fixtures.replace Fixtures.counting_graph 0 =
    ["tick"; "tick"]%string /\
  LangGraph.ainvoke Fixtures.replace Fixtures.counting_graph 0 = Ok 2 /\
  List.length (LangGraph.visited Fixtures.replace Fixtures.spinning_graph 0) =
    LangGraph.recursion_limit /\
  LangGraph.ainvoke Fixtures.replace Fixtures.spinning_graph 0 =
    Raise GraphRecursionError.
Proof. repeat split; vm_compute; reflexivity. Qed.

(** C7, amended.  Every run of the two pipelines as built ends normally
    after at most five stages and visits no stage twice: the graphs of
    [_build_graph] have no cycle.  (Nothing in the code detects a revisit;
    a graph with a cycle is simply run again, up to the step limit of the
    graph library.) *)
Theorem pipelines_visit_each_stage_once
    (query : QueryWorkflow.t) (question : str) (limit : Z)
    (upload : UploadWorkflow.t) (fs : list UploadWorkflow.FileInfo) :
  (exists final,
     LangGraph.ainvoke QueryWorkflow.merge (QueryWorkflow._build_graph query)
       (QueryWorkflow.initial_state question limit) = Ok final) /\
  NoDup (QueryWorkflow.stages_run query question limit) /\
  List.length (QueryWorkflow.stages_run query question limit) <= 5 /\
  (exists final,
     LangGraph.ainvoke UploadWorkflow.merge (UploadWorkflow._build_graph upload)
       (UploadWorkflow.initial_state fs) = Ok final) /\
  NoDup (UploadWorkflow.stages_run upload fs) /\
  List.length (UploadWorkflow.stages_run upload fs) <= 5.
Proof.
  assert (D : forall l : list string,
             (forallb (fun x => Nat.eqb (count_occ string_dec l x) 1) l = true) ->
             NoDup l).
  { intros l H. apply (NoDup_count_occ' string_dec). intros x Hx.
    rewrite forallb_forall in H. apply Nat.eqb_eq. apply H. exact Hx. }
  destruct (query_outcome query question limit)
    as [(_ & -> & ->) | [(_ & _ & -> & ->) | (_ & _ & -> & ->)]];
  destruct (upload_outcome upload fs)
    as [(_ & -> & ->) | [(_ & _ & -> & ->) | (_ & _ & -> & ->)]];
  repeat split; try (eexists; reflexivity); try (apply D; reflexivity);
    cbn; lia.
Qed.

End Termination.

(* ================================================================= *)
(** ** What cleaning does to an answer *)

Section Cleaning.

Import LLMService.

Lemma from_first_select_spec (query : str) :
  forall found, from_first_select query = Some found ->
    startswith (lit "SELECT") (upper found) = true /\
    exists dropped, query = dropped ++ found.
Proof.
  induction query as [ | c query IH ]; intros found; cbn [from_first_select];
    [ discriminate | ].
  destruct (startswith (lit "SELECT") (upper (c :: query))) eqn:E.
  - intros H. injection H as <-. split; [ exact E | ].
    exists []. reflexivity.
  - intros H. destruct (IH found H) as (Hs & dropped & ->).
    split; [ exact Hs | ]. exists (c :: dropped). reflexivity.
Qed.



End Cleaning.

(* ================================================================= *)
(** ** A statement is run only after both gates *)

Section BothGates.

Import QueryWorkflow.

Variable self : QueryWorkflow.t.

Lemma no_statement_before_generation (question : str) (limit : Z) :
  generated_sql (after_context self (initial_state question limit)) = None.
Proof.
  unfold after_context, after_schema. cbv zeta.
  unfold get_schema, get_rag_context, RAGService.get_query_context,
    try_except, bind, getitem, failure, merge.
  split_cases; reflexivity.
Qed.

Lemma generated_statement_is_safe (state : QueryState) (statement : str) :
  generated_sql state = None ->
  generated_sql (merge state (generate_sql self state)) = Some statement ->
  LLMService._is_query_safe statement = true.
Proof.
  intros Hnone. unfold generate_sql, try_except, bind, getitem, failure, merge.
  cbn [generated_sql]. rewrite Hnone.
  split_cases; cbn [generated_sql over]; intros H; try discriminate H.
  injection H as <-.
  eapply generate_sql_query_safe. eassumption.
Qed.

Lemma executed_statement_is_safe (state : QueryState) (statement : str) :
  generated_sql state = Some statement ->
  success (merge state (execute_query self state)) = Some true ->
  DatabaseService.is_safe_query statement = true.
Proof.
  intros Hsql. unfold execute_query, try_except, bind, getitem, failure, merge.
  cbn [success]. rewrite Hsql. cbn [truthy_opt].
  destruct (DatabaseService.is_safe_query statement); [ reflexivity | ].
  split_cases; cbn [success over]; discriminate.
Qed.

Lemma execute_query_writes_no_statement (state : QueryState) :
  generated_sql (execute_query self state) = None.
Proof.
  unfold execute_query, try_except, bind, getitem, failure.
  split_cases; reflexivity.
Qed.

Lemma explain_results_keeps_statement (state : QueryState) :
  generated_sql (merge state (explain_results self state)) =
  generated_sql state.
Proof.
  unfold explain_results, try_except, bind, getitem.
  destruct (negb (truthy_opt nonempty (execution_result state))
            || negb (truthy_opt truthy (generated_sql state))).
  - unfold merge. cbn [generated_sql].
    destruct (generated_sql state); reflexivity.
  - unfold merge.
    destruct (generated_sql state), (execution_result state),
      (natural_language_query state); reflexivity.
Qed.

Lemma statement_survives_execution (state : QueryState) :
  let s4 := merge state (execute_query self state) in
  generated_sql (merge s4 (explain_results self s4)) = generated_sql state.
Proof.
  cbv zeta. rewrite explain_results_keeps_statement.
  unfold merge at 1. cbn [generated_sql].
  rewrite execute_query_writes_no_statement. reflexivity.
Qed.

(** X1.  When a run reports success, the statement in the result passed
    the generation-time gate and the execution-time gate. *)
Lemma success_means_both_gates_passed (question : str) (limit : Z)
    (sql : option str) (rows : option (list Row)) (text err : option str) :
  process_query self question limit = FullResult sql rows text true err ->
  exists statement,
    sql = Some statement /\
    LLMService._is_query_safe statement = true /\
    DatabaseService.is_safe_query statement = true.
Proof.
  unfold process_query.
  destruct (query_outcome self question limit)
    as [(_ & _ & ->) | [(_ & _ & _ & ->) | (Hvalid & Hsuccess & _ & ->)]].
  - unfold handle_error, merge, failure. cbn. discriminate.
  - unfold handle_error, merge, failure. cbn. discriminate.
  - intros H.
    apply (f_equal (fun r => match r with
                             | FullResult statement _ _ _ _ => statement
                             | FailureResult _ _ => None
                             end)) in H.
    cbv beta iota in H. rename H into Hsql.
    unfold after_execution in *. cbv zeta in *.
    rewrite statement_survives_execution in Hsql.
    set (s3 := after_generation self (initial_state question limit)) in *.
    assert (Hs : exists statement, generated_sql s3 = Some statement).
    { unfold check_sql_validity in Hvalid.
      destruct (generated_sql s3) as [ statement | ];
        [ exists statement; reflexivity | ].
      destruct (truthy_opt truthy (error s3)); discriminate Hvalid. }
    destruct Hs as (statement & Hs).
    exists statement. split; [ rewrite <- Hsql; exact Hs | ]. split.
    + apply (generated_statement_is_safe
               (after_context self (initial_state question limit))).
      * apply no_statement_before_generation.
      * exact Hs.
    + apply (executed_statement_is_safe s3); [ exact Hs | ].
      unfold check_execution_success in Hsuccess.
      destruct (success (merge s3 (execute_query self s3))) as [ [] | ];
        [ reflexivity | | ];
        destruct (truthy_opt truthy (error (merge s3 (execute_query self s3))));
        discriminate Hsuccess.
Qed.

End BothGates.

Section BothGatesExample.

Import QueryWorkflow.

(** The run of the example, which reports success for [SELECT 1]. *)
Lemma both_gates_witness :
  exists statement,
    Some (lit "SELECT 1") = Some statement /\
    LLMService._is_query_safe statement = true /\
    DatabaseService.is_safe_query statement = true.
Proof.
  apply (success_means_both_gates_passed
           (Fixtures.query_workflow "SELECT 1" [Fixtures.one_row])
           (lit "how many users") 50
           (Some (lit "SELECT 1")) (Some [Fixtures.one_row])
           (Some (lit "SELECT 1")) None).
  vm_compute. reflexivity.
Defined.

End BothGatesExample.

(* ================================================================= *)
(** ** Which error a failed query run reports *)

Section QueryErrors.

Import QueryWorkflow.

Variable self : QueryWorkflow.t.

(** X3.  When the schema cannot be used (the fetch raises, or the database
    has no table), the nodes that follow still run and each overwrites the
    error: the run ends in [handle_error] with the error of
    [generate_sql], and the driver's own message is lost. *)
Theorem unusable_schema_is_reported_as_missing_context
    (question : str) (limit : Z) :
  (exists e, DatabaseService.get_schema (db_service self) = Raise e) \/
  DatabaseService.get_schema (db_service self) = Ok [] ->
  process_query self question limit =
    FullResult None None None false
      (Some (lit "No context available for SQL generation")) /\
  stages_run self question limit =
    ["get_schema"; "get_rag_context"; "generate_sql"; "handle_error"]%string.
Proof.
  intros Hschema.
  assert (E3 : exists tables,
    after_generation self (initial_state question limit) =
    {| natural_language_query := Some question; max_results := Some limit;
       schema := tables; rag_context := None; generated_sql := None;
       execution_result := None; explanation := None;
       error := Some (lit "No context available for SQL generation");
       success := Some false |}).
  { unfold after_generation, after_context, after_schema. cbv zeta.
    unfold get_schema, try_except, bind.
    destruct Hschema as [(e & ->) | ->]; eexists; reflexivity. }
  destruct E3 as (tables & E3).
  destruct (query_outcome self question limit)
    as [(_ & Hstages & Hfinal) | [(Hvalid & _) | (Hvalid & _)]];
    try (rewrite E3 in Hvalid; discriminate Hvalid).
  split; [ | exact Hstages ].
  unfold process_query. rewrite Hfinal, E3. reflexivity.
Qed.

End QueryErrors.

Section QueryErrorsExample.

Import QueryWorkflow.

(** A database without tables. *)
Lemma unusable_schema_witness :
  process_query
    {| rag_service := {| RAGService.vector_store := Some Fixtures.store_up |};
       llm_service := Fixtures.model "SELECT 1";
       db_service :=
         {| DatabaseService.inspect_schema := Ok [];
            DatabaseService.run_sql := fun _ => Ok [] |} |}
    (lit "how many users") 50 =
    FullResult None None None false
      (Some (lit "No context available for SQL generation")).
Proof.
  refine (proj1 (unusable_schema_is_reported_as_missing_context _ _ _ _)).
  right. reflexivity.
Defined.

End QueryErrorsExample.

Section ExecutionErrors.

Import QueryWorkflow.

Variable self : QueryWorkflow.t.

(** The state handed to [execute_query] when the schema is usable and the
    model's statement is accepted at generation time. *)
Lemma state_with_statement (tables : Schema) (question sql : str) (limit : Z) :
  DatabaseService.get_schema (db_service self) = Ok tables ->
  tables <> [] ->
  (forall context,
     LLMService.generate_sql_query (llm_service self) question context = Ok sql) ->
  exists context,
    after_generation self (initial_state question limit) =
    {| natural_language_query := Some question; max_results := Some limit;
       schema := Some tables; rag_context := Some context;
       generated_sql := Some sql; execution_result := None;
       explanation := None; error := None; success := Some false |}.
Proof.
  intros Hschema Htables Hgen.
  set (s0 := initial_state question limit).
  assert (E1 : after_schema self s0 =
    {| natural_language_query := Some question; max_results := Some limit;
       schema := Some tables; rag_context := None; generated_sql := None;
       execution_result := None; explanation := None; error := None;
       success := Some false |}).
  { unfold after_schema, get_schema, try_except, bind.
    rewrite Hschema. reflexivity. }
  assert (E2 : exists context, after_context self s0 =
    {| natural_language_query := Some question; max_results := Some limit;
       schema := Some tables; rag_context := Some context;
       generated_sql := None; execution_result := None;
       explanation := None; error := None; success := Some false |}).
  { unfold after_context. cbv zeta. rewrite E1.
    unfold get_rag_context, try_except, bind, getitem.
    cbn [schema natural_language_query truthy_opt].
    destruct tables as [ | table tables ]; [ contradiction | ].
    cbn [nonempty negb]. unfold RAGService.get_query_context.
    eexists. reflexivity. }
  destruct E2 as (context & E2). exists context.
  unfold after_generation. cbv zeta. rewrite E2.
  unfold generate_sql, try_except, bind, getitem.
  cbn [rag_context natural_language_query truthy_opt negb].
  rewrite Hgen. reflexivity.
Qed.

(** X4.  Let the schema be usable and let the model's statement pass the
    generation-time gate and hold no [ERROR:] sentinel.  If the
    execution-time gate refuses the statement, the run ends in
    [handle_error] with the error [Generated query is not safe], whatever
    the database would have answered; if the gate accepts it and the
    database raises, the error is the database's message behind
    [Query execution failed: ].  In both cases the result still carries
    the statement, has no rows and no explanation, and success is false. *)
Theorem statement_not_run_to_completion (tables : Schema)
    (question sql : str) (limit : Z) :
  DatabaseService.get_schema (db_service self) = Ok tables ->
  tables <> [] ->
  (forall context,
     LLMService.generate_sql_query (llm_service self) question context = Ok sql) ->
  contains (lit "ERROR:") (upper sql) = false ->
  stages_run self question limit <>
    ["get_schema"; "get_rag_context"; "generate_sql"; "handle_error"]%string /\
  (DatabaseService.is_safe_query sql = false ->
   process_query self question limit =
     FullResult (Some sql) None None false
       (Some (lit "Generated query is not safe"))) /\
  (forall e,
     DatabaseService.is_safe_query sql = true ->
     DatabaseService.execute_query (db_service self) sql = Raise e ->
     process_query self question limit =
       FullResult (Some sql) None None false
         (Some (lit "Query execution failed: " ++ str_of_exn e))).
Proof.
  intros Hschema Htables Hgen Hsentinel.
  destruct (state_with_statement tables question sql limit Hschema Htables Hgen)
    as (context & E3).
  assert (Htruthy : truthy sql = true).
  { pose proof (safe_begins_with_select sql
                  (generate_sql_query_safe _ _ (Build_RagContext [] [] [])
                     _ (Hgen _))) as Hsel.
    destruct sql; [ discriminate Hsel | reflexivity ]. }
  assert (Hvalid : check_sql_validity
                     (after_generation self (initial_state question limit)) =
                   "valid"%string).
  { rewrite E3. unfold check_sql_validity.
    cbn [error generated_sql truthy_opt get_or]. rewrite Htruthy.
    rewrite (safe_begins_with_select sql
               (generate_sql_query_safe _ _ (Build_RagContext [] [] [])
                  _ (Hgen _))), Hsentinel. reflexivity. }
  pose proof (query_outcome self question limit) as Hrun. cbv zeta in Hrun.
  unfold after_execution in Hrun. cbv zeta in Hrun.
  rewrite E3 in Hrun. rewrite E3 in Hvalid.
  split; [ | split ].
  - destruct Hrun as [(Hinv & _) | [(_ & _ & -> & _) | (_ & _ & -> & _)]];
      [ rewrite Hvalid in Hinv; discriminate Hinv | discriminate | discriminate ].
  - intros Hunsafe. unfold process_query.
    unfold execute_query, try_except, bind, getitem in Hrun.
    cbn [generated_sql truthy_opt] in Hrun.
    rewrite Htruthy, Hunsafe in Hrun. cbn [negb] in Hrun.
    destruct Hrun as [(Hinv & _) | [(_ & _ & _ & ->) | (_ & Hok & _)]].
    + rewrite Hvalid in Hinv. discriminate Hinv.
    + reflexivity.
    + discriminate Hok.
  - intros e Hsafe Hraise. unfold process_query.
    unfold execute_query, try_except, bind, getitem in Hrun.
    cbn [generated_sql truthy_opt] in Hrun.
    rewrite Htruthy, Hsafe in Hrun. cbn [negb] in Hrun.
    rewrite Hraise in Hrun.
    destruct Hrun as [(Hinv & _) | [(_ & _ & _ & ->) | (_ & Hok & _)]].
    + rewrite Hvalid in Hinv. discriminate Hinv.
    + reflexivity.
    + discriminate Hok.
Qed.

End ExecutionErrors.

Section ExecutionErrorsExample.

Import QueryWorkflow.

(** A statement over a column named [updated_at]. *)
Lemma statement_not_run_witness :
  process_query (Fixtures.query_workflow "SELECT updated_at FROM users" [])
    (lit "last changes") 50 =
    FullResult (Some (lit "SELECT updated_at FROM users")) None None false
      (Some (lit "Generated query is not safe")).
Proof.
  refine (proj1 (proj2
    (statement_not_run_to_completion
       (Fixtures.query_workflow "SELECT updated_at FROM users" [])
       Fixtures.users_schema (lit "last changes")
       (lit "SELECT updated_at FROM users") 50 _ _ _ _)) _).
  - reflexivity.
  - discriminate.
  - intros context. vm_compute. reflexivity.
  - vm_compute. reflexivity.
  - vm_compute. reflexivity.
Defined.

End ExecutionErrorsExample.

(* ================================================================= *)
(** ** Every way an ingestion run can fail *)

Section UploadErrors.

Import TextExtraction UploadWorkflow Ingestion.

Variable self : UploadWorkflow.t.

Lemma count_error_records (msg : str) (fs : list FileInfo) :
  count_status (lit "error") (map (error_record msg) fs) = List.length fs /\
  count_status (lit "success") (map (error_record msg) fs) = 0.
Proof.
  unfold count_status.
  induction fs as [ | f fs (IH1 & IH2) ]; [ split; reflexivity | ].
  cbn [map filter status error_record].
  change (str_eqb (lit "error") (lit "error")) with true.
  change (str_eqb (lit "error") (lit "success")) with false.
  cbn [List.length]. rewrite IH1, IH2. split; reflexivity.
Qed.

(** The state after [create_documents] when at least one file passed
    validation. *)
Lemma after_documents_accepted (fs : list FileInfo) :
  validated fs <> [] ->
  after_documents self (initial_state fs) =
    {| files := Some (validated fs);
       extracted_texts := Some (map (entry_of self) (validated fs));
       processed_documents := Some (chunks_of self fs);
       results := None; error := None; success := Some false |}.
Proof.
  intros Haccepted. unfold chunks_of.
  pose proof (validated_complete fs) as Hcomplete.
  assert (Hfs : nonempty fs = true).
  { destruct fs; [ exfalso; apply Haccepted; reflexivity | reflexivity ]. }
  assert (E1 : after_validation self (initial_state fs) =
    {| files := Some (validated fs); extracted_texts := None;
       processed_documents := None; results := None; error := None;
       success := Some false |}).
  { unfold after_validation, validate_files, initial_state, merge.
    cbn [files get_or]. rewrite Hfs. reflexivity. }
  assert (Hacc : nonempty (validated fs) = true).
  { destruct (validated fs); [ contradiction | reflexivity ]. }
  assert (E2 : after_extraction self (initial_state fs) =
    {| files := Some (validated fs);
       extracted_texts := Some (map (entry_of self) (validated fs));
       processed_documents := None; results := None; error := None;
       success := Some false |}).
  { unfold after_extraction. cbv zeta. rewrite E1.
    unfold extract_text, try_except, bind. cbn [files get_or].
    rewrite Hacc. cbn [negb].
    rewrite (extract_all_complete self (validated fs) Hcomplete). reflexivity. }
  unfold after_documents. cbv zeta. rewrite E2.
  unfold create_documents. cbn [extracted_texts get_or].
  assert (Hent : nonempty (map (entry_of self) (validated fs)) = true).
  { destruct (validated fs); [ discriminate Hacc | reflexivity ]. }
  rewrite Hent. reflexivity.
Qed.

(** X5.  When no submitted file passes validation (the submission is empty,
    or every file lacks a name or a content), the three nodes still run in
    turn and the run reports the error of the last one,
    [No extracted text to process], with no result record at all, although
    [processed_files] counts every submitted file. *)
Theorem no_accepted_file_is_reported_as_missing_text (fs : list FileInfo) :
  validated fs = [] ->
  process_upload self fs =
    {| processed_files := List.length fs; successful := 0; failed := 0;
       out_results := []; out_success := false;
       out_error := Some (lit "No extracted text to process") |} /\
  stages_run self fs =
    ["validate_files"; "extract_text"; "create_documents";
     "handle_error"]%string.
Proof.
  intros Hnone.
  assert (E3 : after_documents self (initial_state fs) =
    {| files := Some []; extracted_texts := None;
       processed_documents := None; results := None;
       error := Some (lit "No extracted text to process");
       success := Some false |}).
  { unfold after_documents, after_extraction, after_validation. cbv zeta.
    unfold validate_files, initial_state. cbn [files get_or].
    destruct fs as [ | f fs ]; cbn [nonempty negb].
    - reflexivity.
    - rewrite Hnone. reflexivity. }
  destruct (upload_outcome self fs)
    as [(_ & Hstages & Hfinal) | [(Hc & _) | (Hc & _)]];
    try (rewrite E3 in Hc; discriminate Hc).
  split; [ | exact Hstages ].
  unfold process_upload. rewrite Hfinal, E3. reflexivity.
Qed.

(** When every accepted file fails extraction, no chunk is produced. *)
Lemma all_failing_gives_no_chunk (fs : list FileInfo) :
  forallb (extraction_fails self) (validated fs) = true ->
  chunks_of self fs = [].
Proof.
  intros Hall. unfold chunks_of. rewrite documents_of_entries.
  assert (E : filter (fun f => negb (extraction_fails self f)) (validated fs) = []).
  { induction (validated fs) as [ | f l IH ]; [ reflexivity | ].
    cbn [forallb] in Hall. apply andb_true_iff in Hall as [Hf Hl].
    cbn [filter]. rewrite Hf. cbn [negb]. apply IH. exact Hl. }
  rewrite E. reflexivity.
Qed.

(** X6.  When files pass validation and every one of them fails text
    extraction (or, more generally, splitting yields no chunk), the run
    ends in [handle_error] with the error [Unknown error occurred]: one
    failure record per accepted file carries that text, and the
    extraction messages of the files do not reach the result. *)
Theorem no_chunk_is_reported_as_unknown_error (fs : list FileInfo) :
  validated fs <> [] ->
  forallb (extraction_fails self) (validated fs) = true \/
  chunks_of self fs = [] ->
  process_upload self fs = failure_report fs (lit "Unknown error occurred") /\
  stages_run self fs =
    ["validate_files"; "extract_text"; "create_documents";
     "handle_error"]%string.
Proof.
  intros Haccepted Hnone.
  assert (Hchunks : chunks_of self fs = []).
  { destruct Hnone as [H | H];
      [ apply all_failing_gives_no_chunk; exact H | exact H ]. }
  pose proof (after_documents_accepted fs Haccepted) as E3.
  rewrite Hchunks in E3.
  destruct (upload_outcome self fs)
    as [(_ & Hstages & Hfinal) | [(Hc & _) | (Hc & _)]];
    try (rewrite E3 in Hc; discriminate Hc).
  split; [ | exact Hstages ].
  unfold process_upload, failure_report. rewrite Hfinal, E3.
  unfold handle_error, merge.
  cbn [files error results success get_or over out_results].
  destruct (count_error_records (lit "Unknown error occurred") (validated fs))
    as (C1 & C2).
  rewrite C1, C2. reflexivity.
Qed.

(** X7.  When chunks exist but cannot be inserted -- the store handle is
    missing, or the insertion raises -- the run ends in [handle_error]:
    the error is [Vector store not available], respectively the store's
    message behind [Failed to add documents: ], and the result holds one
    failure record with that text per accepted file (the per-chunk records
    written for a missing store are replaced). *)
Theorem failed_insertion_is_reported_per_file (fs : list FileInfo) :
  chunks_of self fs <> [] ->
  (RAGService.vector_store (rag_service self) = None ->
   process_upload self fs =
     failure_report fs (lit "Vector store not available")) /\
  (forall store e,
     RAGService.vector_store (rag_service self) = Some store ->
     RAGService.add_documents store (chunks_of self fs) = Raise e ->
     process_upload self fs =
       failure_report fs (lit "Failed to add documents: " ++ str_of_exn e)).
Proof.
  intros Hchunks.
  assert (Haccepted : validated fs <> []).
  { intros E. apply Hchunks. unfold chunks_of. rewrite E. reflexivity. }
  pose proof (after_documents_accepted fs Haccepted) as E3.
  assert (Hch : nonempty (chunks_of self fs) = true).
  { destruct (chunks_of self fs); [ contradiction | reflexivity ]. }
  pose proof (upload_outcome self fs) as Hrun. cbv zeta in Hrun.
  unfold after_insertion in Hrun. cbv zeta in Hrun. rewrite E3 in Hrun.
  unfold add_to_vector_store, try_except, bind in Hrun.
  cbn [processed_documents get_or] in Hrun. rewrite Hch in Hrun.
  cbn [negb] in Hrun.
  split.
  - intros Hstore. rewrite Hstore in Hrun.
    destruct Hrun as [(Hc & _) | [(_ & _ & _ & Hfinal) | (_ & Hok & _)]];
      [ unfold check_documents_created in Hc;
        cbn [error processed_documents truthy_opt] in Hc;
        rewrite Hch in Hc; discriminate Hc
      | | discriminate Hok ].
    unfold process_upload, failure_report. rewrite Hfinal.
    unfold handle_error, merge.
    cbn [files error results success get_or over out_results].
    destruct (count_error_records (lit "Vector store not available")
                (validated fs)) as (C1 & C2).
    rewrite C1, C2. reflexivity.
  - intros store e Hstore Hraise. rewrite Hstore, Hraise in Hrun.
    destruct Hrun as [(Hc & _) | [(_ & _ & _ & Hfinal) | (_ & Hok & _)]];
      [ unfold check_documents_created in Hc;
        cbn [error processed_documents truthy_opt] in Hc;
        rewrite Hch in Hc; discriminate Hc
      | | discriminate Hok ].
    unfold process_upload, failure_report. rewrite Hfinal.
    unfold handle_error, merge, failure.
    cbn [files error results success get_or over out_results].
    destruct (count_error_records
                (lit "Failed to add documents: " ++ str_of_exn e)
                (validated fs)) as (C1 & C2).
    rewrite C1, C2. reflexivity.
Qed.

End UploadErrors.

Section UploadErrorsExamples.

Import UploadWorkflow Ingestion.

(** A single file without content. *)
Lemma no_accepted_file_witness :
  process_upload (Fixtures.upload_workflow Fixtures.store_up)
    [Fixtures.upload "empty.txt" ""] =
    {| processed_files := 1; successful := 0; failed := 0;
       out_results := []; out_success := false;
       out_error := Some (lit "No extracted text to process") |}.
Proof.
  refine (proj1 (no_accepted_file_is_reported_as_missing_text
                   (Fixtures.upload_workflow Fixtures.store_up)
                   [Fixtures.upload "empty.txt" ""] _)).
  reflexivity.
Defined.

(** A PDF, where the PDF reader is not installed. *)
Lemma no_chunk_witness :
  process_upload (Fixtures.upload_workflow Fixtures.store_up)
    [Fixtures.upload "b.pdf" "%PDF"] =
    failure_report [Fixtures.upload "b.pdf" "%PDF"]
      (lit "Unknown error occurred").
Proof.
  refine (proj1 (no_chunk_is_reported_as_unknown_error
                   (Fixtures.upload_workflow Fixtures.store_up)
                   [Fixtures.upload "b.pdf" "%PDF"] _ _)).
  - vm_compute. discriminate.
  - left. vm_compute. reflexivity.
Defined.

(** A text file, sent to a store that refuses the insertion. *)
Lemma failed_insertion_witness :
  process_upload (Fixtures.upload_workflow Fixtures.store_down)
    [Fixtures.upload "notes.txt" "hello"] =
    failure_report [Fixtures.upload "notes.txt" "hello"]
      (lit "Failed to add documents: connection refused").
Proof.
  refine (proj2 (failed_insertion_is_reported_per_file
                   (Fixtures.upload_workflow Fixtures.store_down)
                   [Fixtures.upload "notes.txt" "hello"] _)
            Fixtures.store_down (Exception (lit "connection refused")) _ _).
  - vm_compute. discriminate.
  - reflexivity.
  - reflexivity.
Defined.

End UploadErrorsExamples.

(* ================================================================= *)
(** ** The execution-time gate in plain words *)

Section WordFacts.

Import Wording.




End WordFacts.

Section ExecutionGate.

Import DatabaseService Wording.



End ExecutionGate.

(* ================================================================= *)
(** ** When cleaning fails, and where the kept text starts *)

Section CleaningFailures.

Import LLMService Wording.




End CleaningFailures.

(* ================================================================= *)
(** ** Code fences *)

Section Fences.

Import LLMService Wording.

Lemma sub_fences_skip (k : nat) (s : str) :
  sub_fences k s = sub_fences 0 (skipn k s).
Proof.
  revert k. induction s as [ | c s IH ]; intros [ | k ]; try reflexivity.
  cbn [sub_fences skipn]. apply IH.
Qed.

Lemma fence_len_zero (s : str) :
  fence_len s = 0 <-> startswith fence s = false.
Proof.
  unfold fence_len, fence.
  destruct (startswith (lit "```sql") s) eqn:E.
  - apply startswith_iff in E as (rest & ->).
    destruct (startswith _ _); split; discriminate.
  - destruct (startswith (lit "```") s); split; (discriminate || reflexivity).
Qed.

Lemma fence_head (c : ascii) (s : str) :
  startswith fence (c :: s) = Ascii.eqb "`" c && startswith (lit "``") s.
Proof. reflexivity. Qed.

Lemma two_ticks_head (c : ascii) (s : str) :
  startswith (lit "``") (c :: s) = Ascii.eqb "`" c && startswith (lit "`") s.
Proof. reflexivity. Qed.

Lemma one_tick_head (c : ascii) (s : str) :
  startswith (lit "`") (c :: s) = Ascii.eqb "`" c.
Proof. unfold lit. cbn [list_ascii_of_string startswith]. apply andb_true_r. Qed.

Lemma starts_with_tick (s : str) :
  first_tick_free s -> forall p, startswith ("`"%char :: p) s = false.
Proof.
  intros H p. destruct s as [ | c s ]; [ reflexivity | ].
  cbn [startswith first_tick_free] in *.
  destruct (Ascii.eqb_spec "`"%char c) as [ <- | _ ];
    [ contradiction | reflexivity ].
Qed.

Lemma tick_free_after (s : str) :
  first_tick_free s -> first_tick_free (sub_fences 0 s).
Proof.
  intros H. destruct s as [ | c s ]; [ exact I | ].
  pose proof (starts_with_tick (c :: s) H (lit "``")) as E.
  apply fence_len_zero in E. cbn [sub_fences]. rewrite E. exact H.
Qed.

Lemma tick_free_of_prefix (s : str) :
  startswith (lit "`") s = false -> first_tick_free s.
Proof.
  destruct s as [ | c s ]; [ intros _; exact I | ].
  rewrite one_tick_head. cbn [first_tick_free].
  destruct (Ascii.eqb_spec "`"%char c) as [ <- | Hne ];
    [ discriminate | intros _ E; apply Hne; symmetry; exact E ].
Qed.

(** What is left never begins with a fence. *)
Lemma sub_fences_head (n : nat) :
  forall s, List.length s <= n -> startswith fence (sub_fences 0 s) = false.
Proof.
  induction n as [ | n IH ]; intros [ | c s ] Hlen; try reflexivity;
    cbn [List.length] in Hlen; [ lia | ].
  cbn [sub_fences].
  destruct (fence_len (c :: s)) as [ | k ] eqn:F.
  - apply fence_len_zero in F. rewrite fence_head in F |- *.
    destruct (Ascii.eqb_spec "`"%char c) as [ <- | _ ]; [ | reflexivity ].
    cbn [andb] in F |- *.
    destruct s as [ | d s ]; [ reflexivity | ].
    rewrite two_ticks_head in F.
    destruct (Ascii.eqb_spec "`"%char d) as [ <- | Hd ].
    + cbn [andb] in F.
      pose proof (tick_free_of_prefix s F) as Hs.
      assert (F' : fence_len ("`"%char :: s) = 0).
      { apply fence_len_zero. rewrite fence_head.
        exact (starts_with_tick s Hs (lit "`")). }
      cbn [sub_fences]. rewrite F'. rewrite two_ticks_head.
      exact (starts_with_tick _ (tick_free_after s Hs) []).
    + assert (Hfree : first_tick_free (d :: s)).
      { cbn [first_tick_free]. intros E. apply Hd. symmetry. exact E. }
      exact (starts_with_tick _ (tick_free_after (d :: s) Hfree) (lit "`")).
  - rewrite sub_fences_skip. apply IH. rewrite length_skipn. lia.
Qed.

Lemma sub_fences_free (n : nat) :
  forall s, List.length s <= n -> contains fence (sub_fences 0 s) = false.
Proof.
  induction n as [ | n IH ]; intros [ | c s ] Hlen; try reflexivity;
    cbn [List.length] in Hlen; [ lia | ].
  pose proof (sub_fences_head (S n) (c :: s)) as Hhead.
  cbn [sub_fences] in Hhead |- *.
  destruct (fence_len (c :: s)) as [ | k ] eqn:F.
  - cbn [contains]. rewrite Hhead by (cbn [List.length]; lia).
    cbn [orb]. apply IH. lia.
  - rewrite sub_fences_skip. apply IH. rewrite length_skipn. lia.
Qed.

Lemma sub_fences_unfenced (s : str) :
  contains fence s = false -> sub_fences 0 s = s.
Proof.
  induction s as [ | c s IH ]; [ reflexivity | ].
  cbn [contains]. intros H. apply orb_false_iff in H as [Hhead Htail].
  apply fence_len_zero in Hhead. cbn [sub_fences]. rewrite Hhead.
  f_equal. apply IH. exact Htail.
Qed.

Lemma subsequence_skipn (k : nat) (t s : str) :
  Subsequence t (skipn k s) -> Subsequence t s.
Proof.
  revert k. induction s as [ | c s IH ]; intros [ | k ] H;
    cbn [skipn] in H; try exact H.
  apply SubDrop. apply (IH k). exact H.
Qed.

Lemma sub_fences_subsequence (n : nat) :
  forall s, List.length s <= n -> Subsequence (sub_fences 0 s) s.
Proof.
  induction n as [ | n IH ]; intros [ | c s ] Hlen; try apply SubNil;
    cbn [List.length] in Hlen; [ lia | ].
  cbn [sub_fences].
  destruct (fence_len (c :: s)) as [ | k ].
  - apply SubKeep. apply IH. lia.
  - apply SubDrop. rewrite sub_fences_skip. apply (subsequence_skipn k).
    apply IH. rewrite length_skipn. lia.
Qed.

(** X10.  Removing the code fences of an answer leaves no fence behind
    (deleting one never joins stray backquotes into a new one), only ever
    deletes characters, leaves a text without fences as it is, and so
    changes nothing when applied again. *)
Theorem strip_fences_leaves_no_fence (s : str) :
  (~ exists pre post, strip_fences s = pre ++ fence ++ post) /\
  Subsequence (strip_fences s) s /\
  ((~ exists pre post, s = pre ++ fence ++ post) -> strip_fences s = s) /\
  strip_fences (strip_fences s) = strip_fences s.
Proof.
  unfold strip_fences.
  pose proof (sub_fences_free (List.length s) s (le_n _)) as Hfree.
  repeat split.
  - intros H. apply contains_iff in H. rewrite Hfree in H. discriminate H.
  - apply (sub_fences_subsequence (List.length s)). apply le_n.
  - intros H. apply sub_fences_unfenced.
    destruct (contains fence s) eqn:E; [ | reflexivity ].
    exfalso. apply H. apply contains_iff. exact E.
  - apply sub_fences_unfenced. exact Hfree.
Qed.

End Fences.

(* ================================================================= *)
(** ** The ingestion pipeline as a decision table *)

Section UploadReport.

Import TextExtraction UploadWorkflow Ingestion.

Variable self : UploadWorkflow.t.

(** [process_upload] returns what the table [report] says: the graph, its
    five nodes and the merging of their partial states come down to four
    questions about the submission. *)
Lemma process_upload_report (fs : list FileInfo) :
  process_upload self fs = report self fs.
Proof.
  unfold report.
  destruct (validated fs) as [ | f0 accepted ] eqn:Hv.
  - assert (E3 : after_documents self (initial_state fs) =
      {| files := Some []; extracted_texts := None;
         processed_documents := None; results := None;
         error := Some (lit "No extracted text to process");
         success := Some false |}).
    { unfold after_documents, after_extraction, after_validation. cbv zeta.
      unfold validate_files, initial_state. cbn [files get_or].
      destruct fs as [ | f fs ]; cbn [nonempty negb].
      - reflexivity.
      - rewrite Hv. reflexivity. }
    destruct (upload_outcome self fs)
      as [(_ & _ & Hfinal) | [(Hc & _) | (Hc & _)]];
      try (rewrite E3 in Hc; discriminate Hc).
    unfold process_upload, failure_report. rewrite Hfinal, E3, Hv. reflexivity.
  - assert (Haccepted : validated fs <> []) by (rewrite Hv; discriminate).
    pose proof (after_documents_accepted self fs Haccepted) as E3.
    pose proof (upload_outcome self fs) as Hrun. cbv zeta in Hrun.
    unfold after_insertion in Hrun. cbv zeta in Hrun. rewrite E3 in Hrun.
    unfold check_documents_created in Hrun.
    cbn [error processed_documents truthy_opt orb] in Hrun.
    unfold add_to_vector_store, try_except, bind in Hrun.
    cbn [processed_documents get_or] in Hrun.
    destruct (chunks_of self fs) as [ | d chunks ] eqn:Hch.
    + cbn [nonempty negb] in Hrun.
      destruct Hrun as [(_ & _ & Hfinal) | [(Hc & _) | (Hc & _)]];
        try discriminate Hc.
      unfold process_upload, failure_report. rewrite Hfinal.
      unfold handle_error, merge.
      cbn [files error results success get_or over out_results].
      destruct (count_error_records (lit "Unknown error occurred")
                  (validated fs)) as (C1 & C2).
      rewrite C1, C2. reflexivity.
    + cbn [nonempty negb] in Hrun.
      destruct (RAGService.vector_store (rag_service self)) as [ store | ].
      * destruct (RAGService.add_documents store (d :: chunks)) as [ [] | e ].
        -- destruct Hrun as [(Hc & _) | [(_ & Hu & _) | (_ & _ & _ & Hfinal)]];
             [ discriminate Hc | discriminate Hu | ].
           unfold process_upload. rewrite Hfinal. unfold merge.
           cbn [files error results success get_or over out_results].
           destruct (count_success_records (d :: chunks)) as (C1 & C2).
           rewrite C1, C2. reflexivity.
        -- destruct Hrun as [(Hc & _) | [(_ & _ & _ & Hfinal) | (_ & Hok & _)]];
             [ discriminate Hc | | discriminate Hok ].
           unfold process_upload, failure_report. rewrite Hfinal.
           unfold handle_error, merge, failure.
           cbn [files error results success get_or over out_results].
           destruct (count_error_records
                       (lit "Failed to add documents: " ++ str_of_exn e)
                       (validated fs)) as (C1 & C2).
           rewrite C1, C2. reflexivity.
      * destruct Hrun as [(Hc & _) | [(_ & _ & _ & Hfinal) | (_ & Hok & _)]];
          [ discriminate Hc | | discriminate Hok ].
        unfold process_upload, failure_report. rewrite Hfinal.
        unfold handle_error, merge.
        cbn [files error results success get_or over out_results].
        destruct (count_error_records (lit "Vector store not available")
                    (validated fs)) as (C1 & C2).
        rewrite C1, C2. reflexivity.
Qed.

End UploadReport.

(* ================================================================= *)
(** ** The upload endpoints *)

Section UploadEndpoints.

Import TextExtraction UploadWorkflow Ingestion UploadRouter.

Lemma str_eqb_eq (a b : str) : str_eqb a b = true <-> a = b.
Proof.
  unfold str_eqb. destruct (list_eq_dec ascii_dec a b) as [ E | E ].
  - split; [ intros _; exact E | reflexivity ].
  - split; [ discriminate | intros H; contradiction ].
Qed.

Lemma dict_get_head (key value default : str) (d : dict) :
  dict_get key ((key, value) :: d) default = value.
Proof.
  cbn [dict_get]. destruct (list_eq_dec ascii_dec key key) as [ _ | E ];
    [ reflexivity | contradiction ].
Qed.

(** Text comes out of [extract_text_from_file] for nine types only. *)
Lemma extraction_needs_readable_type (ex : TextExtraction.t) (data : bytes)
    (file_extension text : str) :
  extract_text_from_file ex data file_extension = Ok text ->
  In file_extension readable_types.
Proof.
  unfold extract_text_from_file, readable_types.
  destruct (str_eqb file_extension (lit ".pdf")) eqn:E1.
  { intros _. apply str_eqb_eq in E1. left. symmetry. exact E1. }
  destruct (str_eqb file_extension (lit ".docx")) eqn:E2.
  { intros _. apply str_eqb_eq in E2. right. left. symmetry. exact E2. }
  destruct (existsb (str_eqb file_extension) plain_text_types) eqn:E3;
    [ | discriminate ].
  intros _. apply existsb_exists in E3 as (known & Hin & E).
  apply str_eqb_eq in E. subst known. right. right. exact Hin.
Qed.

(** A chunk carries the metadata of a document it was cut from. *)
Lemma chunk_metadata (wf : UploadWorkflow.t) (documents : list Document)
    (chunk : Document) :
  In chunk (split_documents wf documents) ->
  exists doc, In doc documents /\ metadata chunk = metadata doc.
Proof.
  unfold split_documents. intros H.
  apply in_flat_map in H as (doc & Hdoc & H).
  apply in_map_iff in H as (piece & <- & _).
  exists doc. split; [ exact Hdoc | reflexivity ].
Qed.

(** What [validate_files] makes of the single entry of an endpoint. *)
Lemma validated_entry (file : UploadFile) (name : str) (data : bytes)
    (file_extension : str) :
  upload_filename file = Some name ->
  validated [entry file data file_extension] =
    if negb (truthy name) || negb (nonempty data) then []
    else [{| filename := Some name; content := Some data;
             extension := Some (lower (splitext_ext name));
             size := Some (List.length data) |}].
Proof.
  intros Hname. unfold entry. cbn [validated filename content].
  rewrite Hname. reflexivity.
Qed.

(** The chunks of a single entry, when there are any, come from a file
    with a name, a content and a type the extraction module reads. *)
Lemma chunks_of_entry (wf : UploadWorkflow.t) (file : UploadFile)
    (name : str) (data : bytes) (file_extension : str) (chunk : Document) :
  upload_filename file = Some name ->
  In chunk (chunks_of wf [entry file data file_extension]) ->
  data <> [] /\
  In (lower (splitext_ext name)) readable_types /\
  dict_get (lit "filename") (metadata chunk) (lit "unknown") = name.
Proof.
  intros Hname. unfold chunks_of.
  rewrite (validated_entry file name data file_extension Hname).
  destruct (negb (truthy name) || negb (nonempty data)) eqn:Hdrop;
    [ intros []| ].
  apply orb_false_iff in Hdrop as [_ Hdata]. apply negb_false_iff in Hdata.
  cbn [map documents_of]. unfold entry_of. cbv zeta.
  cbn [filename content extension get_or].
  destruct (extract_text_from_file (extraction wf) data
              (lower (splitext_ext name))) as [ text | e ] eqn:Hx.
  - cbn [text_error truthy_opt]. intros H.
    apply chunk_metadata in H as (doc & [<- | []] & Hmeta).
    split; [ intros ->; discriminate Hdata | ].
    split; [ eapply extraction_needs_readable_type; exact Hx | ].
    rewrite Hmeta. unfold document_of. cbn [metadata text_filename].
    apply dict_get_head.
  - cbn [text_error truthy_opt].
    pose proof (extraction_error_not_blank _ _ _ _ Hx) as Hne.
    destruct (str_of_exn e); [ contradiction | ].
    cbn [truthy]. intros [].
Qed.

Variable self : UploadRouter.t.

Lemma extension_of_named (file : UploadFile) (file_extension : str) :
  extension_of file = Ok file_extension ->
  exists name,
    upload_filename file = Some name /\
    file_extension = lower (splitext_ext name).
Proof.
  unfold extension_of. destruct (upload_filename file) as [ name | ];
    [ | discriminate ].
  intros H. injection H as <-. exists name. split; reflexivity.
Qed.

(** X11.  [upload_knowledge_file] never answers with a 400: whatever goes
    wrong -- a type it refuses itself, an unreadable upload, a failed run --
    leaves as status 500 with a detail that begins
    [File processing failed: ].  It answers 200 only for a named, non-empty
    file of one of the nine types the extraction module reads; the answer
    then reports the length of the content and the success record of the
    first chunk, which bears the file's name. *)
Theorem single_upload_outcomes (file : UploadFile) :
  (forall e, upload_knowledge_file self file = Raise e ->
     exists detail,
       e = HTTPException 500 (lit "File processing failed: " ++ detail)) /\
  (forall response, upload_knowledge_file self file = Ok response ->
     exists name data record,
       upload_filename file = Some name /\
       read file = Ok data /\
       data <> [] /\
       In (lower (splitext_ext name)) readable_types /\
       up_size response = List.length data /\
       up_result response = Some record /\
       status record = lit "success" /\
       result_filename record = name).
Proof.
  unfold upload_knowledge_file, bind.
  destruct (extension_of file) as [ file_extension | e0 ] eqn:Hext;
    [ | split; [ intros e H; injection H as <-; eexists; reflexivity
               | intros response H; discriminate H ] ].
  destruct (supported file_extension); cbn [negb];
    [ | split; [ intros e H; injection H as <-; eexists; reflexivity
               | intros response H; discriminate H ] ].
  destruct (read file) as [ data | e1 ];
    [ | split; [ intros e H; injection H as <-; eexists; reflexivity
               | intros response H; discriminate H ] ].
  destruct (get_upload_workflow self) as [ wf | e2 ];
    [ | split; [ intros e H; injection H as <-; eexists; reflexivity
               | intros response H; discriminate H ] ].
  rewrite process_upload_report.
  destruct (out_success (report wf [entry file data file_extension])) eqn:Hok;
    [ | split; [ intros e H; injection H as <-; eexists; reflexivity
               | intros response H; discriminate H ] ].
  split; [ intros e H; discriminate H | ].
  intros response H. injection H as <-.
  apply extension_of_named in Hext as (name & Hname & ->).
  unfold report in *.
  destruct (validated [entry file data (lower (splitext_ext name))]);
    [ discriminate Hok | ].
  destruct (chunks_of wf [entry file data (lower (splitext_ext name))])
    as [ | chunk chunks ] eqn:Hchunks; [ discriminate Hok | ].
  destruct (RAGService.vector_store (rag_service wf)) as [ store | ];
    [ | discriminate Hok ].
  destruct (RAGService.add_documents store (chunk :: chunks)) as [ [] | e ];
    [ | discriminate Hok ].
  destruct (chunks_of_entry wf file name data (lower (splitext_ext name))
              chunk Hname) as (Hdata & Hreadable & Hfile).
  { rewrite Hchunks. left. reflexivity. }
  exists name, data, (success_record chunk).
  repeat split; try assumption; reflexivity.
Qed.

(** X12.  A [.doc] file passes the type check of the endpoint and can
    never be ingested: the extraction module has no reader for it, no
    document is built, and the run's generic error leaves as a 500 --
    [Unknown error occurred] for a file with content,
    [No extracted text to process] for an empty one. *)
Theorem doc_upload_is_accepted_and_fails (file : UploadFile) (name : str)
    (data : bytes) (wf : UploadWorkflow.t) :
  upload_filename file = Some name ->
  lower (splitext_ext name) = lit ".doc" ->
  read file = Ok data ->
  get_upload_workflow self = Ok wf ->
  supported (lit ".doc") = true /\
  upload_knowledge_file self file =
    Raise (HTTPException 500
             (lit "File processing failed: 500: "
              ++ (if nonempty data then lit "Unknown error occurred"
                  else lit "No extracted text to process"))).
Proof.
  intros Hname Hdoc Hread Hwf. split; [ reflexivity | ].
  assert (Htruthy : truthy name = true).
  { destruct name; [ discriminate Hdoc | reflexivity ]. }
  unfold upload_knowledge_file, bind, extension_of.
  rewrite Hname, Hdoc, Hread, Hwf.
  change (supported (lit ".doc")) with true. cbn [negb].
  rewrite process_upload_report. unfold report, chunks_of.
  rewrite (validated_entry file name data (lit ".doc") Hname), Htruthy, Hdoc.
  cbn [negb orb].
  destruct data as [ | b data ]; cbn [nonempty negb]; [ reflexivity | ].
  cbn [map documents_of]. unfold entry_of. cbv zeta.
  cbn [filename content extension get_or].
  change (extract_text_from_file (extraction wf) (b :: data) (lit ".doc"))
    with (@Raise str (HTTPException 400
            (lit "Unsupported file type for text extraction: " ++ lit ".doc"))).
  reflexivity.
Qed.

End UploadEndpoints.

Section UploadEndpointsExample.

Import UploadWorkflow UploadRouter.

(** A Word file of the old format. *)
Lemma doc_upload_witness :
  upload_knowledge_file Examples.upload_router
    (Examples.sent "Report.DOC" "text") =
  Raise (HTTPException 500
           (lit "File processing failed: 500: Unknown error occurred")).
Proof.
  refine (proj2 (doc_upload_is_accepted_and_fails Examples.upload_router
                   (Examples.sent "Report.DOC" "text") (lit "Report.DOC")
                   (lit "text") (Fixtures.upload_workflow Fixtures.store_up)
                   _ _ _ _)); reflexivity.
Defined.

End UploadEndpointsExample.

(* ================================================================= *)
(** ** The batch endpoint *)

Section BatchEndpoint.

Import TextExtraction UploadWorkflow Ingestion UploadRouter.

Variable self : UploadRouter.t.

(** The loop keeps one entry per file that takes part. *)
Lemma collect_length (files : list UploadFile) :
  forall file_data, collect files = Ok file_data ->
    List.length file_data = List.length (filter takes_part files).
Proof.
  induction files as [ | file files IH ]; intros file_data;
    cbn [collect filter]; unfold bind, takes_part.
  - intros H. injection H as <-. reflexivity.
  - destruct (extension_of file) as [ file_extension | e ]; [ | discriminate ].
    destruct (supported file_extension); cbn [negb].
    + destruct (read file) as [ data | e ]; [ | discriminate ].
      destruct (collect files) as [ rest | e ]; [ | discriminate ].
      intros H. injection H as <-. cbn [List.length]. f_equal.
      apply IH. reflexivity.
    + apply IH.
Qed.

(** Files with a name, none of a supported type: nothing is collected. *)
Lemma collect_nothing (files : list UploadFile) :
  Forall (fun file => upload_filename file <> None) files ->
  filter takes_part files = [] ->
  collect files = Ok [].
Proof.
  induction 1 as [ | file files Hname _ IH ]; [ reflexivity | ].
  cbn [collect filter]. unfold bind, takes_part, extension_of.
  destruct (upload_filename file) as [ name | ]; [ | contradiction ].
  destruct (supported (lower (splitext_ext name))); cbn [negb];
    [ discriminate | exact IH ].
Qed.

(** A failed run reports its error, no success and as many failures as
    it lists records. *)
Lemma failed_report_fields (wf : UploadWorkflow.t) (fs : list FileInfo) :
  out_success (report wf fs) = false ->
  exists msg,
    out_error (report wf fs) = Some msg /\
    successful (report wf fs) = 0 /\
    failed (report wf fs) = List.length (out_results (report wf fs)).
Proof.
  unfold report, failure_report.
  repeat match goal with
         | |- context [match ?x with _ => _ end] => destruct x
         end;
    cbn [out_success out_error successful failed out_results];
    try discriminate; intros _; eexists;
    (split; [ reflexivity | split; [ reflexivity | ] ]);
    rewrite length_map; reflexivity.
Qed.

(** X13.  [upload_knowledge_batch] fails with status 500 only, the detail
    beginning [Batch upload failed: ] -- also for its own 400 when no file
    has a supported type.  When it answers, the report counts in
    [processed_files] the files of a supported type, not the files sent;
    and a run that failed is answered as a report (success false, its
    error, every record a failure), not as an error status. *)
Theorem batch_upload_outcomes (files : list UploadFile) :
  (forall e, upload_knowledge_batch self files = Raise e ->
     exists detail,
       e = HTTPException 500 (lit "Batch upload failed: " ++ detail)) /\
  (Forall (fun file => upload_filename file <> None) files ->
   filter takes_part files = [] ->
   upload_knowledge_batch self files =
     Raise (HTTPException 500
              (lit "Batch upload failed: 400: No valid files provided"))) /\
  (forall result, upload_knowledge_batch self files = Ok result ->
     processed_files result = List.length (filter takes_part files) /\
     0 < processed_files result <= List.length files /\
     (out_success result = false ->
      exists msg,
        out_error result = Some msg /\
        successful result = 0 /\
        failed result = List.length (out_results result))).
Proof.
  split; [ | split ].
  - unfold upload_knowledge_batch, bind. intros e.
    repeat match goal with
           | |- context [match ?x with _ => _ end] =>
               lazymatch x with
               | context [match _ with _ => _ end] => fail
               | _ => destruct x
               end
           end;
      intros H; try discriminate H; injection H as <-; eexists; reflexivity.
  - intros Hnamed Hnone. unfold upload_knowledge_batch, bind.
    rewrite (collect_nothing files Hnamed Hnone). reflexivity.
  - unfold upload_knowledge_batch, bind.
    destruct (collect files) as [ file_data | e ] eqn:Hcollect;
      [ | discriminate ].
    destruct file_data as [ | f file_data ]; cbn [nonempty negb];
      [ discriminate | ].
    destruct (get_upload_workflow self) as [ wf | e ]; [ | discriminate ].
    intros result H. injection H as <-.
    rewrite process_upload_report.
    pose proof (collect_length files _ Hcollect) as Hlen.
    pose proof (filter_length_le takes_part files) as Hle.
    assert (Hcount : processed_files (report wf (f :: file_data)) =
                     List.length (f :: file_data)).
    { unfold report, failure_report.
      repeat match goal with
             | |- context [match ?x with _ => _ end] => destruct x
             end; reflexivity. }
    rewrite Hcount, <- Hlen. cbn [List.length] in *.
    repeat split; try lia.
    apply failed_report_fields.
Qed.

End BatchEndpoint.

(* ================================================================= *)
(** ** The query endpoint *)

Section QueryEndpoint.

Import QueryRouter.

Variable self : QueryRouter.t.

(** X14.  The query endpoint never raises.  A response with success true
    carries a statement that passed the generation-time gate and the
    execution-time gate, the rows the database returned for it, cut to the
    requested number (all of them when the request sets no limit), and the
    explanation of the untruncated rows.  A response with success false
    carries no statement -- not even one that was generated and then
    refused -- and no rows; its explanation is [Error: ] followed by the
    error message. *)
Theorem query_endpoint_outcomes (request : QueryRequest) :
  (success (process_query self request) = true ->
   LLMService._is_query_safe (generated_sql (process_query self request)) = true /\
   DatabaseService.is_safe_query (generated_sql (process_query self request)) = true /\
   error_message (process_query self request) = None /\
   exists results,
     DatabaseService.execute_query (db_service self)
       (generated_sql (process_query self request)) = Ok results /\
     execution_result (process_query self request) =
       Some (rows_up_to results (max_results request)) /\
     explanation (process_query self request) =
       LLMService.explain_results (llm_service self)
         (generated_sql (process_query self request)) results
         (natural_language_query request)) /\
  (success (process_query self request) = false ->
   generated_sql (process_query self request) = [] /\
   execution_result (process_query self request) = None /\
   exists msg,
     error_message (process_query self request) = Some msg /\
     explanation (process_query self request) = lit "Error: " ++ msg).
Proof.
  unfold process_query, try_except, bind, RAGService.get_query_context.
  match goal with
  | |- context [LLMService.generate_sql_query ?llm ?q ?c] =>
      destruct (LLMService.generate_sql_query llm q c) as [ sql | e ] eqn:Hgen
  end.
  - destruct (DatabaseService.is_safe_query sql) eqn:Hsafe; cbn [negb].
    + destruct (DatabaseService.execute_query (db_service self) sql)
        as [ results | e ] eqn:Hrun.
      * cbn [success generated_sql execution_result explanation error_message].
        split; [ intros _ | discriminate ].
        split; [ eapply generate_sql_query_safe; exact Hgen | ].
        split; [ exact Hsafe | ]. split; [ reflexivity | ].
        exists results. repeat split. exact Hrun.
      * cbn [success generated_sql execution_result explanation error_message].
        split; [ discriminate | intros _ ].
        repeat split. eexists. split; reflexivity.
    + cbn [success generated_sql execution_result explanation error_message].
      split; [ discriminate | intros _ ].
      repeat split. eexists. split; reflexivity.
  - cbn [success generated_sql execution_result explanation error_message].
    split; [ discriminate | intros _ ].
    repeat split. eexists. split; reflexivity.
Qed.

Lemma explain_results_keeps_rows (wf : QueryWorkflow.t)
    (state : QueryWorkflow.QueryState) :
  QueryWorkflow.execution_result
    (QueryWorkflow.merge state (QueryWorkflow.explain_results wf state)) =
  QueryWorkflow.execution_result state.
Proof.
  unfold QueryWorkflow.explain_results, try_except, bind, getitem.
  destruct (negb (truthy_opt nonempty (QueryWorkflow.execution_result state))
            || negb (truthy_opt truthy (QueryWorkflow.generated_sql state))).
  - unfold QueryWorkflow.merge. cbn [QueryWorkflow.execution_result].
    destruct (QueryWorkflow.execution_result state); reflexivity.
  - unfold QueryWorkflow.merge.
    destruct (QueryWorkflow.generated_sql state),
      (QueryWorkflow.execution_result state),
      (QueryWorkflow.natural_language_query state); reflexivity.
Qed.

(** The dict [process_query] builds from the final state of a run. *)
Lemma process_query_final (wf : QueryWorkflow.t) (question : str) (limit : Z)
    (final : QueryWorkflow.QueryState) :
  LangGraph.ainvoke QueryWorkflow.merge (QueryWorkflow._build_graph wf)
    (QueryWorkflow.initial_state question limit) = Ok final ->
  QueryWorkflow.process_query wf question limit =
    QueryWorkflow.FullResult
      (QueryWorkflow.generated_sql final) (QueryWorkflow.execution_result final)
      (QueryWorkflow.explanation final)
      (get_or false (QueryWorkflow.success final)) (QueryWorkflow.error final).
Proof.
  intros Hfinal. unfold QueryWorkflow.process_query. rewrite Hfinal.
  reflexivity.
Qed.

(** A run that ended in [handle_error] does not report success. *)
Lemma handled_run_fails (wf : QueryWorkflow.t) (question : str) (limit : Z)
    (state : QueryWorkflow.QueryState)
    (sql : option str) (rows : option (list Row)) (text err : option str) :
  LangGraph.ainvoke QueryWorkflow.merge (QueryWorkflow._build_graph wf)
    (QueryWorkflow.initial_state question limit) =
    Ok (QueryWorkflow.merge state (QueryWorkflow.handle_error wf state)) ->
  QueryWorkflow.process_query wf question limit <>
    QueryWorkflow.FullResult sql rows text true err.
Proof.
  intros Hfinal Hrun.
  rewrite (process_query_final wf question limit _ Hfinal) in Hrun.
  apply (f_equal (fun r => match r with
                           | QueryWorkflow.FullResult _ _ _ ok _ => ok
                           | QueryWorkflow.FailureResult _ _ => false
                           end)) in Hrun.
  cbv beta iota in Hrun. discriminate Hrun.
Qed.

(** X15.  The endpoint and the LangGraph workflow over the same services
    agree on success: when the schema read at import is the one the
    database still reports, every question the workflow answers
    successfully is answered successfully by the endpoint, with the same
    statement and the same rows. *)
Theorem workflow_success_is_endpoint_success (question : str) (limit : Z)
    (sql : option str) (rows : option (list Row)) (text err : option str) :
  DatabaseService.get_schema (db_service self) = Ok (schema self) ->
  QueryWorkflow.process_query (workflow self) question limit =
    QueryWorkflow.FullResult sql rows text true err ->
  success (process_query self
             {| natural_language_query := question;
                max_results := Some limit |}) = true /\
  Some (generated_sql
          (process_query self
             {| natural_language_query := question;
                max_results := Some limit |})) = sql /\
  execution_result
    (process_query self
       {| natural_language_query := question;
          max_results := Some limit |}) = rows.
Proof.
  intros Hschema Hrun.
  pose proof (query_outcome (workflow self) question limit) as Hout.
  cbv zeta in Hout. unfold QueryWorkflow.after_execution in Hout.
  cbv zeta in Hout.
  set (s0 := QueryWorkflow.initial_state question limit) in *.
  assert (E1 : QueryWorkflow.after_schema (workflow self) s0 =
    {| QueryWorkflow.natural_language_query := Some question;
       QueryWorkflow.max_results := Some limit;
       QueryWorkflow.schema := Some (schema self);
       QueryWorkflow.rag_context := None;
       QueryWorkflow.generated_sql := None;
       QueryWorkflow.execution_result := None;
       QueryWorkflow.explanation := None;
       QueryWorkflow.error := None;
       QueryWorkflow.success := Some false |}).
  { unfold QueryWorkflow.after_schema, QueryWorkflow.get_schema,
      try_except, bind.
    change (QueryWorkflow.db_service (workflow self)) with (db_service self).
    rewrite Hschema. reflexivity. }
  assert (Hfailed : forall state,
            LangGraph.ainvoke QueryWorkflow.merge
              (QueryWorkflow._build_graph (workflow self)) s0 =
              Ok (QueryWorkflow.merge state
                    (QueryWorkflow.handle_error (workflow self) state)) ->
            False).
  { intros state Hfinal.
    exact (handled_run_fails _ _ _ _ _ _ _ _ Hfinal Hrun). }
  destruct (schema self) as [ | table tables ] eqn:Htables.
  - (* no table: the workflow stops before generation *)
    assert (E3 : QueryWorkflow.after_generation (workflow self) s0 =
      {| QueryWorkflow.natural_language_query := Some question;
         QueryWorkflow.max_results := Some limit;
         QueryWorkflow.schema := Some [];
         QueryWorkflow.rag_context := None;
         QueryWorkflow.generated_sql := None;
         QueryWorkflow.execution_result := None;
         QueryWorkflow.explanation := None;
         QueryWorkflow.error :=
           Some (lit "No context available for SQL generation");
         QueryWorkflow.success := Some false |}).
    { unfold QueryWorkflow.after_generation, QueryWorkflow.after_context.
      cbv zeta. rewrite E1. reflexivity. }
    rewrite E3 in Hout.
    destruct Hout as [(_ & _ & Hfinal) | [(Hv & _) | (Hv & _)]];
      try discriminate Hv.
    exfalso. exact (Hfailed _ Hfinal).
  - set (context :=
           {| schema_info :=
                RAGService.search_relevant_info (rag_service self) question 3;
              best_practices :=
                RAGService.search_relevant_info (rag_service self)
                  (lit "best practices " ++ question) 2;
              full_schema := table :: tables |}).
    assert (E2 : QueryWorkflow.after_context (workflow self) s0 =
      {| QueryWorkflow.natural_language_query := Some question;
         QueryWorkflow.max_results := Some limit;
         QueryWorkflow.schema := Some (table :: tables);
         QueryWorkflow.rag_context := Some context;
         QueryWorkflow.generated_sql := None;
         QueryWorkflow.execution_result := None;
         QueryWorkflow.explanation := None;
         QueryWorkflow.error := None;
         QueryWorkflow.success := Some false |}).
    { unfold QueryWorkflow.after_context. cbv zeta. rewrite E1. reflexivity. }
    unfold process_query, try_except, bind, RAGService.get_query_context.
    cbn [natural_language_query max_results]. rewrite Htables. fold context.
    destruct (LLMService.generate_sql_query (llm_service self) question context)
      as [ statement | e ] eqn:Hgen.
    + assert (E3 : QueryWorkflow.after_generation (workflow self) s0 =
        {| QueryWorkflow.natural_language_query := Some question;
           QueryWorkflow.max_results := Some limit;
           QueryWorkflow.schema := Some (table :: tables);
           QueryWorkflow.rag_context := Some context;
           QueryWorkflow.generated_sql := Some statement;
           QueryWorkflow.execution_result := None;
           QueryWorkflow.explanation := None;
           QueryWorkflow.error := None;
           QueryWorkflow.success := Some false |}).
      { unfold QueryWorkflow.after_generation. cbv zeta. rewrite E2.
        unfold QueryWorkflow.generate_sql, try_except, bind, getitem.
        cbn [QueryWorkflow.rag_context QueryWorkflow.natural_language_query
             truthy_opt negb].
        change (QueryWorkflow.llm_service (workflow self))
          with (llm_service self).
        rewrite Hgen. reflexivity. }
      rewrite E3 in Hout.
      unfold QueryWorkflow.execute_query, try_except, bind, getitem in Hout.
      cbn [QueryWorkflow.generated_sql QueryWorkflow.max_results truthy_opt
           get_or] in Hout.
      change (QueryWorkflow.db_service (workflow self))
        with (db_service self) in Hout.
      destruct (truthy statement) eqn:Htruthy; cbn [negb] in Hout;
        [ | destruct Hout as [(_ & _ & Hfinal) | [(_ & _ & _ & Hfinal)
                                                 | (_ & Hok & _)]];
            [ exfalso; exact (Hfailed _ Hfinal)
            | exfalso; exact (Hfailed _ Hfinal)
            | discriminate Hok ] ].
      destruct (DatabaseService.is_safe_query statement); cbn [negb] in Hout;
        [ | destruct Hout as [(_ & _ & Hfinal) | [(_ & _ & _ & Hfinal)
                                                 | (_ & Hok & _)]];
            [ exfalso; exact (Hfailed _ Hfinal)
            | exfalso; exact (Hfailed _ Hfinal)
            | discriminate Hok ] ].
      destruct (DatabaseService.execute_query (db_service self) statement)
        as [ results | e ];
        [ | destruct Hout as [(_ & _ & Hfinal) | [(_ & _ & _ & Hfinal)
                                                 | (_ & Hok & _)]];
            [ exfalso; exact (Hfailed _ Hfinal)
            | exfalso; exact (Hfailed _ Hfinal)
            | discriminate Hok ] ].
      destruct Hout as [(_ & _ & Hfinal) | [(_ & _ & _ & Hfinal)
                                           | (_ & _ & _ & Hfinal)]];
        [ exfalso; exact (Hfailed _ Hfinal)
        | exfalso; exact (Hfailed _ Hfinal) | ].
      rewrite (process_query_final _ _ _ _ Hfinal) in Hrun. clear Hfinal.
      cbn [negb success generated_sql execution_result rows_up_to].
      split; [ reflexivity | ].
      split.
      * apply (f_equal (fun r => match r with
                                 | QueryWorkflow.FullResult s _ _ _ _ => s
                                 | QueryWorkflow.FailureResult _ _ => None
                                 end)) in Hrun.
        cbv beta iota in Hrun. rewrite <- Hrun.
        rewrite explain_results_keeps_statement.
        cbn [QueryWorkflow.merge QueryWorkflow.generated_sql over].
        reflexivity.
      * apply (f_equal (fun r => match r with
                                 | QueryWorkflow.FullResult _ r _ _ _ => r
                                 | QueryWorkflow.FailureResult _ _ => None
                                 end)) in Hrun.
        cbv beta iota in Hrun. rewrite <- Hrun.
        rewrite explain_results_keeps_rows.
        cbn [QueryWorkflow.merge QueryWorkflow.execution_result over].
        reflexivity.
    + assert (E3 : QueryWorkflow.error
                     (QueryWorkflow.after_generation (workflow self) s0) =
                   Some (lit "SQL generation failed: " ++ str_of_exn e)).
      { unfold QueryWorkflow.after_generation. cbv zeta. rewrite E2.
        unfold QueryWorkflow.generate_sql, try_except, bind, getitem.
        cbn [QueryWorkflow.rag_context QueryWorkflow.natural_language_query
             truthy_opt negb].
        change (QueryWorkflow.llm_service (workflow self))
          with (llm_service self).
        rewrite Hgen. reflexivity. }
      assert (Hinvalid : QueryWorkflow.check_sql_validity
                           (QueryWorkflow.after_generation (workflow self) s0) =
                         "invalid"%string).
      { apply (error_is_invalid _ _ E3). discriminate. }
      destruct Hout as [(_ & _ & Hfinal) | [(Hv & _) | (Hv & _)]];
        [ exfalso; exact (Hfailed _ Hfinal) | | ];
        rewrite Hinvalid in Hv; discriminate Hv.
Qed.

End QueryEndpoint.

Section QueryEndpointExample.

Import QueryRouter.

(** The question of the examples, answered by both paths. *)
Lemma endpoint_agreement_witness :
  success (process_query (Examples.query_router "SELECT 1" [Fixtures.one_row])
             {| natural_language_query := lit "how many users";
                max_results := Some 50%Z |}) = true /\
  Some (generated_sql
          (process_query (Examples.query_router "SELECT 1" [Fixtures.one_row])
             {| natural_language_query := lit "how many users";
                max_results := Some 50%Z |})) = Some (lit "SELECT 1") /\
  execution_result
    (process_query (Examples.query_router "SELECT 1" [Fixtures.one_row])
       {| natural_language_query := lit "how many users";
          max_results := Some 50%Z |}) = Some [Fixtures.one_row].
Proof.
  apply (workflow_success_is_endpoint_success
           (Examples.query_router "SELECT 1" [Fixtures.one_row])
           (lit "how many users") 50
           (Some (lit "SELECT 1")) (Some [Fixtures.one_row])
           (Some (lit "SELECT 1")) None).
  - reflexivity.
  - vm_compute. reflexivity.
Defined.

End QueryEndpointExample.

(* ================================================================= *)
(** ** What the records of a run are about *)

Section UploadRecords.

Import TextExtraction UploadWorkflow Ingestion.

Variable self : UploadWorkflow.t.

Lemma validated_idempotent (fs : list FileInfo) :
  validated (validated fs) = validated fs.
Proof.
  induction fs as [ | f fs IH ]; [ reflexivity | ].
  cbn [validated].
  destruct (filename f) as [ name | ]; [ | exact IH ].
  destruct (content f) as [ data | ]; [ | exact IH ].
  destruct (negb (truthy name) || negb (nonempty data)) eqn:Hdrop;
    [ exact IH | ].
  cbn [validated filename content]. rewrite Hdrop.
  cbn [List.length]. rewrite IH. reflexivity.
Qed.

Lemma validated_length (fs : list FileInfo) :
  List.length (validated fs) <= List.length fs.
Proof.
  induction fs as [ | f fs IH ]; [ apply le_n | ].
  cbn [validated List.length].
  destruct (filename f) as [ name | ]; [ | lia ].
  destruct (content f) as [ data | ]; [ | lia ].
  destruct (negb (truthy name) || negb (nonempty data));
    cbn [List.length]; lia.
Qed.

Lemma text_filename_entry (f : FileInfo) :
  text_filename (entry_of self f) = get_or [] (filename f).
Proof.
  unfold entry_of. cbv zeta.
  destruct (extract_text_from_file _ _ _); reflexivity.
Qed.

(** X16.  What a run does depends on the accepted files only: validating
    a list that was validated changes nothing, and submitting the accepted
    files alone gives the same records, counts of records, success flag
    and error; the entries that validation drops show in
    [processed_files] and nowhere else. *)
Theorem dropped_entries_only_count (fs : list FileInfo) :
  validated (validated fs) = validated fs /\
  out_results (process_upload self (validated fs)) =
    out_results (process_upload self fs) /\
  successful (process_upload self (validated fs)) =
    successful (process_upload self fs) /\
  failed (process_upload self (validated fs)) =
    failed (process_upload self fs) /\
  out_success (process_upload self (validated fs)) =
    out_success (process_upload self fs) /\
  out_error (process_upload self (validated fs)) =
    out_error (process_upload self fs) /\
  processed_files (process_upload self (validated fs)) =
    List.length (validated fs) /\
  processed_files (process_upload self fs) = List.length fs /\
  List.length (validated fs) <= List.length fs.
Proof.
  split; [ apply validated_idempotent | ].
  pose proof (validated_length fs) as Hlen.
  rewrite !process_upload_report. unfold report, failure_report, chunks_of.
  rewrite !validated_idempotent.
  repeat match goal with
         | |- context [match ?x with _ => _ end] =>
             lazymatch x with
             | context [match _ with _ => _ end] => fail
             | _ => destruct x
             end
         end;
    cbn [out_results successful failed out_success out_error processed_files];
    repeat split; try reflexivity; exact Hlen.
Qed.

(** X17.  On a successful run every record is a success record, and each
    bears the name of an accepted file whose text could be extracted: an
    accepted file whose extraction failed leaves no record of its own in
    the result of a successful run. *)
Theorem success_records_are_for_clean_files (fs : list FileInfo) :
  out_success (process_upload self fs) = true ->
  Forall
    (fun record =>
       status record = lit "success" /\
       exists f,
         In f (validated fs) /\
         extraction_fails self f = false /\
         filename f = Some (result_filename record))
    (out_results (process_upload self fs)).
Proof.
  rewrite process_upload_report. unfold report, failure_report.
  destruct (validated fs) as [ | f0 accepted ] eqn:Hv; [ discriminate | ].
  destruct (chunks_of self fs) as [ | chunk0 chunks ] eqn:Hchunks;
    [ discriminate | ].
  destruct (RAGService.vector_store (rag_service self)) as [ store | ];
    [ | discriminate ].
  destruct (RAGService.add_documents store (chunk0 :: chunks)) as [ [] | e ];
    [ | discriminate ].
  intros _. cbn [out_results]. rewrite <- Hchunks, <- Hv. clear Hchunks Hv.
  apply Forall_forall. intros record Hrecord.
  apply in_map_iff in Hrecord as (chunk & <- & Hchunk).
  split; [ reflexivity | ].
  unfold chunks_of in Hchunk.
  apply chunk_metadata in Hchunk as (doc & Hdoc & Hmeta).
  rewrite documents_of_entries in Hdoc.
  apply in_map_iff in Hdoc as (f & <- & Hf).
  apply filter_In in Hf as (Hin & Hclean). apply negb_true_iff in Hclean.
  exists f. split; [ exact Hin | ]. split; [ exact Hclean | ].
  cbn [success_record result_filename]. rewrite Hmeta.
  unfold document_of. cbn [metadata]. rewrite dict_get_head.
  rewrite text_filename_entry.
  pose proof (validated_complete fs) as Hcomplete.
  rewrite Forall_forall in Hcomplete.
  destruct (Hcomplete f Hin) as ((name & Hname) & _).
  rewrite Hname. reflexivity.
Qed.

End UploadRecords.

Section UploadRecordsExample.

Import UploadWorkflow.

(** Three files, of which the PDF cannot be read: four records, two for
    each of the other files. *)
Lemma success_records_witness :
  Forall
    (fun record =>
       status record = lit "success" /\
       exists f,
         In f (validated
                 [Fixtures.upload "a.txt" "hello"; Fixtures.upload "b.pdf" "%PDF";
                  Fixtures.upload "c.md" "notes"]) /\
         extraction_fails (Fixtures.upload_workflow Fixtures.store_up) f = false /\
         filename f = Some (result_filename record))
    (out_results
       (process_upload (Fixtures.upload_workflow Fixtures.store_up)
          [Fixtures.upload "a.txt" "hello"; Fixtures.upload "b.pdf" "%PDF";
           Fixtures.upload "c.md" "notes"])).
Proof.
  apply (success_records_are_for_clean_files
           (Fixtures.upload_workflow Fixtures.store_up)
           [Fixtures.upload "a.txt" "hello"; Fixtures.upload "b.pdf" "%PDF";
            Fixtures.upload "c.md" "notes"]).
  vm_compute. reflexivity.
Defined.

End UploadRecordsExample.

(* ================================================================= *)
(** ** What each validator guarantees, and on which text *)

Section ValidatorScope.

Import LLMService DatabaseService Wording.


Lemma lstrip_suffix (s : str) : exists a, s = a ++ lstrip s.
Proof.
  induction s as [ | c s (a & IH) ]; [ exists []; reflexivity | ].
  cbn [lstrip]. destruct (isspace c).
  - exists (c :: a). cbn [app]. f_equal. exact IH.
  - exists []. reflexivity.
Qed.

Lemma rstrip_prefix (s : str) : exists c, s = rstrip s ++ c.
Proof.
  unfold rstrip. destruct (lstrip_suffix (rev s)) as (a & E).
  exists (rev a). rewrite <- rev_app_distr, <- E. symmetry.
  apply rev_involutive.
Qed.

Lemma strip_inside (s : str) : exists a c, s = a ++ strip s ++ c.
Proof.
  unfold strip. destruct (rstrip_prefix s) as (c & E).
  destruct (lstrip_suffix (rstrip s)) as (a & E').
  exists a, c. rewrite app_assoc, <- E'. exact E.
Qed.




Lemma clean_keeps_a_tail (answer sql : str) :
  _clean_sql_query answer = Ok sql ->
  startswith (lit "SELECT") (upper sql) = true /\
  exists dropped, strip (strip_fences answer) = dropped ++ sql.
Proof.
  unfold _clean_sql_query.
  destruct (startswith (lit "SELECT") (upper (strip (strip_fences answer))))
    eqn:E; cbn [negb].
  - intros H. injection H as <-. split; [ exact E | ].
    exists []. reflexivity.
  - destruct (from_first_select (strip (strip_fences answer))) as [ found | ]
      eqn:F; [ | discriminate ].
    intros H. injection H as <-.
    destruct (from_first_select_spec _ _ F) as (Hs & dropped & Hd).
    split; [ exact Hs | ]. exists dropped. exact Hd.
Qed.








End ValidatorScope.

(* ================================================================= *)
(** ** The ASCII texts are closed under what the gates do to a text *)

Section AsciiRange.

Import LLMService Wording.

Lemma isascii_iff (s : str) :
  isascii s = true <-> forall c, In c s -> (N_of_ascii c <? 128)%N = true.
Proof. unfold isascii. apply forallb_forall. Qed.

Lemma isascii_app (a b : str) :
  isascii (a ++ b) = isascii a && isascii b.
Proof. unfold isascii. apply forallb_app. Qed.

Lemma upper_ascii_range (c : ascii) :
  (N_of_ascii (upper_ascii c) <? 128)%N = (N_of_ascii c <? 128)%N.
Proof. destruct c as [[] [] [] [] [] [] [] []]; vm_compute; reflexivity. Qed.

Lemma lower_ascii_range (c : ascii) :
  (N_of_ascii (lower_ascii c) <? 128)%N = (N_of_ascii c <? 128)%N.
Proof. destruct c as [[] [] [] [] [] [] [] []]; vm_compute; reflexivity. Qed.

Lemma isascii_upper (s : str) : isascii (upper s) = isascii s.
Proof.
  induction s as [ | c s IH ]; [ reflexivity | ].
  change (upper (c :: s)) with (upper_ascii c :: upper s).
  unfold isascii in *. cbn [forallb]. rewrite upper_ascii_range, IH.
  reflexivity.
Qed.

Lemma isascii_lower (s : str) : isascii (lower s) = isascii s.
Proof.
  induction s as [ | c s IH ]; [ reflexivity | ].
  change (lower (c :: s)) with (lower_ascii c :: lower s).
  unfold isascii in *. cbn [forallb]. rewrite lower_ascii_range, IH.
  reflexivity.
Qed.

Lemma isascii_inside (a b c : str) :
  isascii (a ++ b ++ c) = true -> isascii b = true.
Proof.
  rewrite !isascii_app. intros H.
  apply andb_true_iff in H as [_ H]. apply andb_true_iff in H as [H _].
  exact H.
Qed.

Lemma isascii_strip (s : str) : isascii s = true -> isascii (strip s) = true.
Proof.
  intros H. destruct (strip_inside s) as (a & c & E).
  rewrite E in H. exact (isascii_inside _ _ _ H).
Qed.

Lemma subsequence_in (t s : str) :
  Subsequence t s -> forall c, In c t -> In c s.
Proof.
  induction 1 as [ | d t s _ IH | d t s _ IH ]; intros c Hc.
  - exact Hc.
  - destruct Hc as [ <- | Hc ]; [ left; reflexivity | right; apply IH; exact Hc ].
  - right. apply IH. exact Hc.
Qed.

Lemma isascii_strip_fences (s : str) :
  isascii s = true -> isascii (strip_fences s) = true.
Proof.
  rewrite !isascii_iff. intros H c Hc. apply H.
  apply (subsequence_in (strip_fences s) s); [ | exact Hc ].
  apply (sub_fences_subsequence (List.length s)). apply le_n.
Qed.

(** The statement cut out of an ASCII answer is ASCII: the validators are
    then applied to a text of the range the model covers. *)
Lemma cleaned_answer_is_ascii (answer sql : str) :
  isascii answer = true ->
  _clean_sql_query answer = Ok sql ->
  isascii sql = true.
Proof.
  intros Hascii Hclean.
  destruct (clean_keeps_a_tail _ _ Hclean) as (_ & dropped & Hq).
  pose proof (isascii_strip _ (isascii_strip_fences _ Hascii)) as H.
  rewrite Hq, isascii_app in H. apply andb_true_iff in H as [_ H].
  exact H.
Qed.

End AsciiRange.
